(** * WinsplitParser: the IOF result-list transformation of [process_xml.py]

    A shallow embedding of [src/process_xml.py].  The module reads an IOF
    XML 3.0 result list that [xml.etree.ElementTree] has already parsed,
    extracts the event data and one dictionary per [PersonResult], derives
    the split times, computes the best split per control and annotates every
    split with its gap to the best one.

    What the embedding keeps from the Python code:
    - element lookups are ElementTree's: [find(".//ns:X")] is the first
      descendant in document order, [find("ns:X")] the first direct child,
      [findall(".//ns:X")] every descendant in document order, and a lookup
      that finds nothing gives [None];
    - [.text] is an optional string ([None] for an element without text);
    - every exception the code can raise is a constructor of [exn], and a
      function that can raise returns a [result];
    - the dictionaries built per person and per split are records, the
      [best_split_times] dictionary is a finite map keyed by the control code;
    - [_add_split_analysis] mutates the split dictionaries in place; each of
      them is created once and referenced from one list only, and a raised
      exception discards the whole list, so the pass is modelled as
      rebuilding the list. *)

From Stdlib Require Import ZArith String Ascii List Lia.
From Stdlib Require Import Floats.PrimFloat Numbers.Cyclic.Int63.Uint63.
From stdpp Require Import base option list gmap strings.

Set Warnings "-register-all,-clear-no-such-hyp".

Local Open Scope string_scope.
Local Open Scope Z_scope.

(** ** Exceptions and the error monad *)

Inductive exn : Type :=
| AttributeError      (* [None.text], [None.find] *)
| TypeError           (* [int(None)] *)
| ValueError          (* [int] of a text that is no integer literal *)
| KeyError            (* [best_split_times[control_code]] *)
| ZeroDivisionError   (* [split_gap / 0] *)
| OverflowError       (* [int / int] too large for a float *)
| IndexError.         (* [result_list[0]] on an empty list *)

Inductive result (A : Type) : Type :=
| Ok (a : A)
| Raise (e : exn).
Arguments Ok {A} a.
Arguments Raise {A} e.

Definition bind {A B : Type} (m : result A) (k : A -> result B) : result B :=
  match m with
  | Ok a => k a
  | Raise e => Raise e
  end.

Notation "x <- m ;; k" := (bind m (fun x => k))
  (at level 100, m at next level, right associativity).

Definition to_option {A : Type} (m : result A) : option A :=
  match m with
  | Ok a => Some a
  | Raise _ => None
  end.

Definition raises {A : Type} (m : result A) : Prop := exists e, m = Raise e.

Definition returns {A : Type} (m : result A) : Prop := exists a, m = Ok a.

(** [for x in xs: ys.append(f(x))], stopping at the first exception. *)
Fixpoint for_each {A B : Type} (f : A -> result B) (xs : list A) : result (list B) :=
  match xs with
  | [] => Ok []
  | x :: rest =>
      y <- f x ;;
      ys <- for_each f rest ;;
      Ok (y :: ys)
  end.

(** ** The parsed document *)

(** An [ET.Element]: its tag (in Clark notation, [{uri}local]), its attribute
    dictionary, its text and its children in document order. *)
Inductive Element : Type :=
| Elem (tag : string) (attrib : gmap string string)
       (text : option string) (children : list Element).

Definition tag (e : Element) : string :=
  match e with Elem t _ _ _ => t end.
Definition attrib (e : Element) : gmap string string :=
  match e with Elem _ a _ _ => a end.
Definition text (e : Element) : option string :=
  match e with Elem _ _ t _ => t end.
Definition children (e : Element) : list Element :=
  match e with Elem _ _ _ c => c end.

(** [namespace = {"ns": "http://www.orienteering.org/datastandard/3.0"}]:
    the path step [ns:X] matches the tag [{uri}X]. *)
Definition namespace_uri : string := "http://www.orienteering.org/datastandard/3.0".

Definition ns (local : string) : string := "{" ++ namespace_uri ++ "}" ++ local.

(** [elem.iter()]: the element and all its descendants, in document order. *)
Fixpoint iter (e : Element) : list Element :=
  match e with
  | Elem _ _ _ cs => e :: flat_map iter cs
  end.

(** The descendants proper, as the path [.//] selects them ([e is not elem]). *)
Definition descendants (e : Element) : list Element := flat_map iter (children e).

Definition has_tag (name : string) (e : Element) : bool :=
  bool_decide (tag e = ns name).

(** [elem.findall(".//ns:name", namespace)] *)
Definition findall_desc (name : string) (e : Element) : list Element :=
  List.filter (has_tag name) (descendants e).

(** [elem.find(".//ns:name", namespace)] *)
Definition find_desc (name : string) (e : Element) : option Element :=
  head (findall_desc name e).

(** [elem.find("ns:name", namespace)] *)
Definition find_child (name : string) (e : Element) : option Element :=
  head (List.filter (has_tag name) (children e)).

(** [elem.get(key, None)] *)
Definition get (e : Element) (key : string) : option string := attrib e !! key.

(** [x.text] and [x.find(...)] on the outcome of a lookup: an
    [AttributeError] when the lookup gave [None]. *)
Definition found (o : option Element) : result Element :=
  match o with
  | Some e => Ok e
  | None => Raise AttributeError
  end.

Definition text_of (o : option Element) : result (option string) :=
  e <- found o ;; Ok (text e).

(** ** The builtins the module relies on *)

(** [int(s)] on a string and the float arithmetic of [a / b * 100] are
    CPython's, not this module's.  The model takes them as an interface
    over the type [pyfloat] of floats:
    [int_of_str s] is [None] where [int(s)] raises [ValueError];
    [round_quotient a b] is the float nearest to [a / b] for [b <> 0] and a
    quotient within the float range; [float_mul_int x n] is [x * n]. *)
Class Builtins (pyfloat : Type) : Type := {
  int_of_str : string -> option Z;
  round_quotient : Z -> Z -> pyfloat;
  float_mul_int : pyfloat -> Z -> pyfloat;
}.

(** [int / int] raises [OverflowError] exactly when the correctly rounded
    quotient is not a finite double, that is when [|a / b|] reaches the
    midpoint between the largest double and [2^1024]. *)
Definition quotient_overflows (a b : Z) : bool :=
  (2 ^ 1024 - 2 ^ 970) * Z.abs b <=? Z.abs a.

(** ** An instance of the builtins, for evaluation *)

(** [int(s)] on ASCII text: surrounding whitespace is stripped, then an
    optional sign and decimal digits, where single underscores may separate
    digits. *)
Module Decimal.

Definition is_space (c : ascii) : bool :=
  let n := nat_of_ascii c in
  ((9 <=? n) && (n <=? 13) || (n =? 32))%nat.

Definition digit (c : ascii) : option Z :=
  let n := nat_of_ascii c in
  if ((48 <=? n) && (n <=? 57))%nat then Some (Z.of_nat n - 48) else None.

Fixpoint lstrip (cs : list ascii) : list ascii :=
  match cs with
  | c :: rest => if is_space c then lstrip rest else cs
  | [] => []
  end.

Definition strip (cs : list ascii) : list ascii :=
  rev (lstrip (rev (lstrip cs))).

(** The digits after a first digit, [acc] being the value read so far. *)
Fixpoint digits (acc : Z) (cs : list ascii) : option Z :=
  match cs with
  | [] => Some acc
  | c :: rest =>
      match digit c with
      | Some d => digits (10 * acc + d) rest
      | None =>
          if bool_decide (c = "_"%char) then
            match rest with
            | c' :: rest' =>
                match digit c' with
                | Some d => digits (10 * acc + d) rest'
                | None => None
                end
            | [] => None
            end
          else None
      end
  end.

Definition unsigned (cs : list ascii) : option Z :=
  match cs with
  | c :: rest =>
      match digit c with
      | Some d => digits d rest
      | None => None
      end
  | [] => None
  end.

Definition int (s : string) : option Z :=
  match strip (list_ascii_of_string s) with
  | c :: rest =>
      if bool_decide (c = "-"%char) then Z.opp <$> unsigned rest
      else if bool_decide (c = "+"%char) then unsigned rest
      else unsigned (c :: rest)
  | [] => None
  end.

End Decimal.

(** [float(n)] for an [int] below [2^63] in absolute value. *)
Definition float_of_int (n : Z) : float :=
  if n <? 0 then PrimFloat.opp (PrimFloat.of_uint63 (Uint63.of_Z (- n)))
  else PrimFloat.of_uint63 (Uint63.of_Z n).

(** Binary64 arithmetic on the integers a double holds exactly: there the
    quotient of the two conversions is the correctly rounded quotient. *)
Definition cpython : Builtins float := {|
  int_of_str := Decimal.int;
  round_quotient a b := PrimFloat.div (float_of_int a) (float_of_int b);
  float_mul_int x n := PrimFloat.mul x (float_of_int n);
|}.

(** ** Sample documents *)

Module Sample.

Definition el (name : string) (cs : list Element) : Element :=
  Elem (ns name) ∅ None cs.

Definition leaf (name text : string) : Element :=
  Elem (ns name) ∅ (Some text) [].

Definition empty (name : string) : Element :=
  Elem (ns name) ∅ None [].

(** [<SplitTime><ControlCode>c</ControlCode><Time>t</Time></SplitTime>] *)
Definition punch (code time : string) : Element :=
  el "SplitTime" [leaf "ControlCode" code; leaf "Time" time].

(** [<SplitTime status="Missing"><ControlCode>c</ControlCode></SplitTime>] *)
Definition missing (code : string) : Element :=
  Elem (ns "SplitTime") {[ "status" := "Missing" ]} None [leaf "ControlCode" code].

Definition person_result (given family club : string) (result : list Element) : Element :=
  el "PersonResult"
    [ el "Person" [el "Name" [leaf "Family" family; leaf "Given" given]];
      el "Organisation" [leaf "Name" club];
      el "Result" result ].

Definition ok (position time : string) (punches : list Element) : list Element :=
  [leaf "Time" time; leaf "Position" position; leaf "Status" "OK"] ++ punches.

Definition event : Element :=
  el "Event" [leaf "Name" "Night sprint"; leaf "Date" "2024-05-04"].

Definition result_list (event : Element) (persons : list Element) : Element :=
  el "ResultList" [event; el "ClassResult" (el "Class" [leaf "Name" "H21"] :: persons)].

(** Two finishers; the one listed first is the slower one. *)
Definition slower_first : Element :=
  result_list event
    [ person_result "Ada" "Berg" "OK Linne" (ok "2" "300" [punch "31" "120"; punch "32" "300"]);
      person_result "Bo" "Dahl" "IFK Lund" (ok "1" "250" [punch "31" "100"; punch "32" "250"]) ].

(** One competitor whose only punch is marked missing. *)
Definition lone_missing : Element :=
  result_list event
    [ person_result "Ada" "Berg" "OK Linne"
        [leaf "Time" "300"; leaf "Status" "MissingPunch"; missing "31"] ].

(** A first control punched at second 0. *)
Definition zero_split : Element :=
  result_list event
    [ person_result "Ada" "Berg" "OK Linne" (ok "1" "300" [punch "31" "0"; punch "32" "300"]) ].

(** The decimal numeral of [10^400]. *)
Definition googol4 : string := String "1" (string_of_list_ascii (repeat "0"%char 400)).

(** Two competitors at one control, after 1 second and after [10^400]. *)
Definition huge_split : Element :=
  result_list event
    [ person_result "Ada" "Berg" "OK Linne" (ok "1" "300" [punch "31" "1"]);
      person_result "Bo" "Dahl" "IFK Lund" (ok "2" googol4 [punch "31" googol4]) ].

(** A competitor whose second of four punches is missing. *)
Definition gap_at_second : Element :=
  person_result "Ada" "Berg" "OK Linne"
    (ok "1" "380" [punch "31" "100"; missing "32"; punch "33" "300"; punch "34" "380"]).

(** A disqualified competitor whose result still carries a position. *)
Definition disqualified : Element :=
  person_result "Bo" "Dahl" "IFK Lund"
    [leaf "Time" "250"; leaf "Position" "1"; leaf "Status" "Disqualified"].

(** A document whose event name, class name, competitor names, club and
    status elements are all there but empty. *)
Definition no_texts : Element :=
  el "ResultList"
    [ el "Event" [empty "Name"; empty "Date"];
      el "ClassResult"
        [ el "Class" [empty "Name"];
          el "PersonResult"
            [ el "Person" [el "Name" [empty "Family"; empty "Given"]];
              el "Organisation" [empty "Name"];
              el "Result" [leaf "Time" "300"; empty "Status"] ] ] ].

(** Event and class, no competitor. *)
Definition no_competitor : Element := result_list event [].

(** A complete competitor, and one without an [Organisation] element. *)
Definition complete : Element :=
  person_result "Ada" "Berg" "OK Linne" (ok "1" "300" [punch "31" "120"]).

Definition clubless : Element :=
  el "PersonResult"
    [ el "Person" [el "Name" [leaf "Family" "Dahl"; leaf "Given" "Bo"]];
      el "Result" (ok "2" "350" [punch "31" "130"]) ].

Definition second_without_club : Element := result_list event [complete; clubless].

(** Two competitors; the second misses control 32, which the first punches. *)
Definition missed_by_one : Element :=
  result_list event
    [ person_result "Ada" "Berg" "OK Linne" (ok "1" "200" [punch "31" "100"; punch "32" "200"]);
      person_result "Bo" "Dahl" "IFK Lund"
        [leaf "Time" "260"; leaf "Status" "MissingPunch"; punch "31" "110"; missing "32"] ].

(** A competitor with three punches, none missing. *)
Definition steady : Element :=
  person_result "Cleo" "Ek" "OK Linne"
    (ok "1" "400" [punch "31" "100"; punch "32" "250"; punch "33" "380"]).

End Sample.

Section Model.
Context {pyfloat : Type} `{!Builtins pyfloat}.

(** [int(x)] where [x] is a [.text]: [int(None)] is a [TypeError]. *)
Definition py_int (t : option string) : result Z :=
  match t with
  | None => Raise TypeError
  | Some s =>
      match int_of_str s with
      | Some z => Ok z
      | None => Raise ValueError
      end
  end.

(** [a / b] on two [int]s. *)
Definition truediv (a b : Z) : result pyfloat :=
  if b =? 0 then Raise ZeroDivisionError
  else if quotient_overflows a b then Raise OverflowError
  else Ok (round_quotient a b).

(** [f"{x}"] of a [.text]: [None] formats as the word [None]. *)
Definition format (t : option string) : string :=
  match t with
  | Some s => s
  | None => "None"
  end.

(** ** The dictionaries of the report *)

(** [{"name": ..., "class": ..., "date": ...}] *)
Record EventData : Type := mkEventData {
  ev_name : option string;
  ev_class : option string;
  ev_date : option string;
}.

(** The two keys [_add_split_analysis] adds to a split dictionary. *)
Record Analysis : Type := mkAnalysis {
  split_gap : option Z;
  percentage_gap : option pyfloat;
}.

(** A split dictionary.  [analysis] is [None] until [_add_split_analysis]
    has set the keys ["split_gap"] and ["percentage_gap"]. *)
Record Split : Type := mkSplit {
  control_code : option string;
  time : option Z;
  split_time : option Z;
  analysis : option Analysis;
}.

(** A person dictionary. *)
Record Person : Type := mkPerson {
  name : string;
  club : option string;
  status : option string;
  position : option Z;
  total_time : Z;
  splits : list Split;
}.

(** The dictionary [process_xml] returns. *)
Record Report : Type := mkReport {
  event_data : EventData;
  results : list Person;
  winning_time : Z;
}.

(** ** [_extract_event_data] *)

Definition _extract_event_data (root : Element) : result EventData :=
  event <- found (find_desc "Event" root) ;;
  name <- text_of (find_desc "Name" event) ;;
  date <- text_of (find_desc "Date" event) ;;
  class_result <- found (find_desc "ClassResult" root) ;;
  class_name <- text_of (find_desc "Name" class_result) ;;
  Ok (mkEventData name class_name date).

(** ** [_compute_split_information] *)

(** The subtraction guarded by [previous_time is not None and time is not None]. *)
Definition split_time_of (previous_time time : option Z) : option Z :=
  match previous_time, time with
  | Some p, Some t => Some (t - p)
  | _, _ => None
  end.

(** The body of the loop for one [SplitTime] element: the time it reads. *)
Definition punch_time (split : Element) : result (option Z) :=
  if bool_decide (get split "status" = Some "Missing") then Ok None
  else
    t <- text_of (find_child "Time" split) ;;
    z <- py_int t ;;
    Ok (Some z).

(** The loop over [split_elements], with the running [previous_time]. *)
Fixpoint split_loop (previous_time : option Z) (split_elements : list Element)
  : result (list Split) :=
  match split_elements with
  | [] => Ok []
  | split :: rest =>
      control_code <- text_of (find_child "ControlCode" split) ;;
      time <- punch_time split ;;
      let split_time := split_time_of previous_time time in
      splits <- split_loop time rest ;;
      Ok (mkSplit control_code time split_time None :: splits)
  end.

Definition _compute_split_information (person_result : Element) : result (list Split) :=
  split_loop (Some 0) (findall_desc "SplitTime" person_result).

(** ** [_extract_person_result] *)

Definition _extract_person_result (person_result : Element) : result Person :=
  name <- found (find_desc "Name" person_result) ;;
  family_name <- text_of (find_child "Family" name) ;;
  given_name <- text_of (find_child "Given" name) ;;
  organisation <- found (find_desc "Organisation" person_result) ;;
  club <- text_of (find_child "Name" organisation) ;;
  result <- found (find_desc "Result" person_result) ;;
  status <- text_of (find_desc "Status" result) ;;
  position <-
    (if bool_decide (status = Some "OK")
     then p <- text_of (find_child "Position" result) ;;
          z <- py_int p ;;
          Ok (Some z)
     else Ok None) ;;
  t <- text_of (find_desc "Time" result) ;;
  total_time <- py_int t ;;
  splits <- _compute_split_information person_result ;;
  Ok (mkPerson (format given_name ++ " " ++ format family_name)
               club status position total_time splits).

(** ** [_extract_result_list] *)

Definition _extract_result_list (root : Element) : result (list Person) :=
  for_each _extract_person_result (findall_desc "PersonResult" root).

(** ** [_compute_best_split_times] *)

(** The body of the inner loop: [continue] on an absent split time, a first
    entry for a control not seen yet, a replacement when strictly smaller. *)
Definition best_step (best_split_times : gmap (option string) Z) (split : Split)
  : gmap (option string) Z :=
  match split_time split with
  | None => best_split_times
  | Some t =>
      match best_split_times !! control_code split with
      | None => <[control_code split := t]> best_split_times
      | Some b =>
          if t <? b then <[control_code split := t]> best_split_times
          else best_split_times
      end
  end.

Definition best_person (best_split_times : gmap (option string) Z) (person : Person)
  : gmap (option string) Z :=
  fold_left best_step (splits person) best_split_times.

Definition _compute_best_split_times (result_list : list Person)
  : gmap (option string) Z :=
  fold_left best_person result_list ∅.

(** ** [_add_split_analysis] *)

(** [best_split_times[control_code]] *)
Definition subscript (best_split_times : gmap (option string) Z)
  (control_code : option string) : result Z :=
  match best_split_times !! control_code with
  | Some b => Ok b
  | None => Raise KeyError
  end.

(** The body of the inner loop.  The subscript is evaluated first, for every
    split, before the test on [split_time]. *)
Definition analyse_split (best_split_times : gmap (option string) Z) (split : Split)
  : result Split :=
  best_split_time <- subscript best_split_times (control_code split) ;;
  a <- match split_time split with
       | None => Ok (mkAnalysis None None)
       | Some t =>
           let split_gap := t - best_split_time in
           q <- truediv split_gap best_split_time ;;
           Ok (mkAnalysis (Some split_gap) (Some (float_mul_int q 100)))
       end ;;
  Ok (mkSplit (control_code split) (time split) (split_time split) (Some a)).

Definition analyse_person (best_split_times : gmap (option string) Z) (person : Person)
  : result Person :=
  splits' <- for_each (analyse_split best_split_times) (splits person) ;;
  Ok (mkPerson (name person) (club person) (status person) (position person)
               (total_time person) splits').

Definition _add_split_analysis (result_list : list Person)
  (best_split_times : gmap (option string) Z) : result (list Person) :=
  for_each (analyse_person best_split_times) result_list.

(** ** [process_xml] *)

(** [result_list[0]] *)
Definition first_item (result_list : list Person) : result Person :=
  match result_list with
  | p :: _ => Ok p
  | [] => Raise IndexError
  end.

(** [process_xml] from [root = ET.fromstring(xml_content)] on: the XML text
    parser is the library's and the model starts at the parsed tree. *)
Definition process_xml (root : Element) : result Report :=
  event_data <- _extract_event_data root ;;
  result_list <- _extract_result_list root ;;
  let best_split_times := _compute_best_split_times result_list in
  result_list <- _add_split_analysis result_list best_split_times ;;
  first <- first_item result_list ;;
  Ok (mkReport event_data result_list (total_time first)).

(** ** Predicates the statements use *)

(** Every split of every person, in the order the two nested loops visit them. *)
Definition all_splits (result_list : list Person) : list Split :=
  flat_map splits result_list.

(** A present split time was recorded at control [c]. *)
Definition recorded_at (result_list : list Person) (c : option string) (t : Z) : Prop :=
  ∃ p s, p ∈ result_list ∧ s ∈ splits p ∧ control_code s = c ∧ split_time s = Some t.

(** Two split dictionaries that agree on the keys [_compute_split_information] wrote. *)
Definition same_punch (s s' : Split) : Prop :=
  control_code s' = control_code s ∧ time s' = time s ∧ split_time s' = split_time s.

(** Two person dictionaries that agree on every key but the analysis of the splits. *)
Definition same_person (p p' : Person) : Prop :=
  name p' = name p ∧ club p' = club p ∧ status p' = status p ∧
  position p' = position p ∧ total_time p' = total_time p ∧
  Forall2 same_punch (splits p) (splits p').

(** The lookups of the code that find no element, and the integer texts
    [int] does not accept.  The text of the other elements is not inspected. *)
Definition no_int (o : option Element) : Prop :=
  match o with
  | None => True
  | Some e =>
      match text e with
      | None => True
      | Some s => int_of_str s = None
      end
  end.

Definition lacks_event (root : Element) : Prop :=
  match find_desc "Event" root with
  | None => True
  | Some event => find_desc "Name" event = None ∨ find_desc "Date" event = None
  end.

Definition lacks_class (root : Element) : Prop :=
  match find_desc "ClassResult" root with
  | None => True
  | Some class_result => find_desc "Name" class_result = None
  end.

Definition lacks_name (person_result : Element) : Prop :=
  match find_desc "Name" person_result with
  | None => True
  | Some name => find_child "Family" name = None ∨ find_child "Given" name = None
  end.

Definition lacks_club (person_result : Element) : Prop :=
  match find_desc "Organisation" person_result with
  | None => True
  | Some organisation => find_child "Name" organisation = None
  end.

Definition lacks_result (person_result : Element) : Prop :=
  match find_desc "Result" person_result with
  | None => True
  | Some result =>
      match find_desc "Status" result with
      | None => True
      | Some status =>
          (text status = Some "OK" ∧ no_int (find_child "Position" result))
          ∨ no_int (find_desc "Time" result)
      end
  end.

Definition bad_punch (split : Element) : Prop :=
  find_child "ControlCode" split = None
  ∨ (get split "status" ≠ Some "Missing" ∧ no_int (find_child "Time" split)).

Definition malformed_person (person_result : Element) : Prop :=
  lacks_name person_result ∨ lacks_club person_result ∨ lacks_result person_result
  ∨ ∃ split, split ∈ findall_desc "SplitTime" person_result ∧ bad_punch split.

Definition malformed (root : Element) : Prop :=
  lacks_event root ∨ lacks_class root
  ∨ ∃ person_result,
      person_result ∈ findall_desc "PersonResult" root ∧ malformed_person person_result.


(** The exceptions of the extraction and those of the annotation pass. *)
Definition extraction_error (e : exn) : Prop :=
  e = AttributeError ∨ e = TypeError ∨ e = ValueError.

Definition analysis_error (e : exn) : Prop :=
  e = KeyError ∨ e = ZeroDivisionError ∨ e = OverflowError.

(** No competitor has a split time at control [c]. *)
Definition unrecorded (result_list : list Person) (c : option string) : Prop :=
  ∀ p s, p ∈ result_list → s ∈ splits p → control_code s = c → split_time s = None.

(** What the annotation pass needs of a split to annotate it. *)
Definition annotatable (best_split_times : gmap (option string) Z) (s : Split) : Prop :=
  ∃ b, best_split_times !! control_code s = Some b ∧
       ∀ t, split_time s = Some t → b ≠ 0 ∧ quotient_overflows (t - b) b = false.

(** The sum of the split times of some records, an absent one counting 0. *)
Definition sum_split_times (recs : list Split) : Z :=
  foldr (λ r acc, default 0 (split_time r) + acc) 0 recs.

(** * Properties *)

(** ** The error monad and the loops *)

Lemma bind_Ok {A B : Type} (m : result A) (k : A -> result B) (b : B) :
  bind m k = Ok b ↔ ∃ a, m = Ok a ∧ k a = Ok b.
Proof.
  destruct m as [a|e]; simpl; split.
  - intros Hk. exists a. auto.
  - intros (a' & Ha & Hk). congruence.
  - discriminate.
  - intros (a' & Ha & _). discriminate.
Qed.

Lemma bind_Raise {A B : Type} (m : result A) (k : A -> result B) (e : exn) :
  bind m k = Raise e ↔ m = Raise e ∨ ∃ a, m = Ok a ∧ k a = Raise e.
Proof.
  destruct m as [a|e']; simpl; split.
  - intros Hk. right. exists a. auto.
  - intros [Hm | (a' & Ha & Hk)]; congruence.
  - intros [= ->]. left. reflexivity.
  - intros [[= ->] | (a' & Ha & _)]; [reflexivity | discriminate].
Qed.

Lemma raises_bind_l {A B : Type} (m : result A) (k : A -> result B) :
  raises m → raises (bind m k).
Proof. intros [e ->]. exists e. reflexivity. Qed.


Lemma result_cases {A : Type} (m : result A) : returns m ∨ raises m.
Proof. destruct m as [a|e]; [left; exists a | right; exists e]; reflexivity. Qed.


(** Splits the hypothesis [H : x <- m ;; k = Ok b] into its two runs. *)
Ltac bind_inv H :=
  let a := fresh "a" in
  let Ha := fresh "H" a in
  apply bind_Ok in H; destruct H as (a & Ha & H).

Lemma for_each_Ok {A B : Type} (f : A -> result B) (xs : list A) (ys : list B) :
  for_each f xs = Ok ys ↔ Forall2 (λ x y, f x = Ok y) xs ys.
Proof.
  revert ys. induction xs as [|x xs IH]; intros ys; simpl.
  - split.
    + intros [= <-]. constructor.
    + intros Hall. inversion Hall. reflexivity.
  - split.
    + intros Hrun. bind_inv Hrun. bind_inv Hrun.
      injection Hrun as <-. constructor; [assumption | by apply IH].
    + intros Hall. inversion Hall as [|? y ? ys' Hy Hrest]; subst.
      rewrite Hy. simpl. apply IH in Hrest. rewrite Hrest. reflexivity.
Qed.

Lemma for_each_Raise {A B : Type} (f : A -> result B) (xs : list A) (e : exn) :
  for_each f xs = Raise e → ∃ x, x ∈ xs ∧ f x = Raise e.
Proof.
  induction xs as [|x xs IH]; simpl; [discriminate|].
  intros Hrun. apply bind_Raise in Hrun as [Hx | (y & Hy & Hrun)].
  - exists x. split; [left | exact Hx].
  - apply bind_Raise in Hrun as [Hrest | (ys & _ & Habs)]; [|discriminate].
    destruct (IH Hrest) as (x' & Hin & Hx'). exists x'. split; [by right | exact Hx'].
Qed.

(** One failing element makes the whole loop fail: no element is skipped. *)
Lemma for_each_raises {A B : Type} (f : A -> result B) (xs : list A) (x : A) :
  x ∈ xs → raises (f x) → raises (for_each f xs).
Proof.
  intros Hin Hx. destruct (result_cases (for_each f xs)) as [[ys Hys] | Hr]; [|exact Hr].
  apply for_each_Ok in Hys.
  apply list_elem_of_lookup in Hin as [i Hi].
  destruct (Forall2_lookup_l _ _ _ _ _ Hys Hi) as (y & _ & Hy).
  destruct Hx as [e He]. congruence.
Qed.


(** ** Best split times *)

Lemma best_step_keeps (m : gmap (option string) Z) (s : Split) (c : option string) (b0 : Z) :
  m !! c = Some b0 → ∃ b1, best_step m s !! c = Some b1 ∧ b1 ≤ b0.
Proof.
  intros Hm. unfold best_step.
  destruct (split_time s) as [t|]; [|exists b0; split; [exact Hm | lia]].
  destruct (decide (control_code s = c)) as [-> | Hne].
  - rewrite Hm. destruct (Z.ltb_spec t b0).
    + exists t. rewrite lookup_insert_eq. split; [reflexivity | lia].
    + exists b0. split; [exact Hm | lia].
  - exists b0. split; [|lia].
    destruct (m !! control_code s) as [b|].
    + destruct (t <? b); [rewrite lookup_insert_ne|]; assumption.
    + rewrite lookup_insert_ne; assumption.
Qed.

Lemma best_step_records (m : gmap (option string) Z) (s : Split) (t : Z) :
  split_time s = Some t → ∃ b1, best_step m s !! control_code s = Some b1 ∧ b1 ≤ t.
Proof.
  intros Ht. unfold best_step. rewrite Ht.
  destruct (m !! control_code s) as [b|] eqn:Hm.
  - destruct (Z.ltb_spec t b).
    + exists t. rewrite lookup_insert_eq. split; [reflexivity | lia].
    + exists b. split; [exact Hm | lia].
  - exists t. rewrite lookup_insert_eq. split; [reflexivity | lia].
Qed.

Lemma best_step_origin (m : gmap (option string) Z) (s : Split) (c : option string) (b1 : Z) :
  best_step m s !! c = Some b1 →
  m !! c = Some b1 ∨ (control_code s = c ∧ split_time s = Some b1).
Proof.
  unfold best_step. destruct (split_time s) as [t|]; [|auto].
  assert (Hins : <[control_code s := t]> m !! c = Some b1 →
                 m !! c = Some b1 ∨ control_code s = c ∧ Some t = Some b1).
  { intros Hl. apply lookup_insert_Some in Hl as [[-> ->] | [_ Hl]]; auto. }
  destruct (m !! control_code s) as [b|]; [destruct (t <? b)|]; auto.
Qed.

Lemma fold_best_lookup (l : list Split) (m : gmap (option string) Z)
    (c : option string) (b : Z) :
  fold_left best_step l m !! c = Some b →
  (∀ b0, m !! c = Some b0 → b ≤ b0)
  ∧ (∀ s t, s ∈ l → control_code s = c → split_time s = Some t → b ≤ t)
  ∧ (m !! c = Some b ∨ ∃ s, s ∈ l ∧ control_code s = c ∧ split_time s = Some b).
Proof.
  revert m. induction l as [|s l IH]; intros m Hfold; simpl in Hfold.
  - split; [|split].
    + intros b0 Hb0. rewrite Hfold in Hb0. injection Hb0 as <-. lia.
    + intros s t Hin. inversion Hin.
    + left. exact Hfold.
  - destruct (IH _ Hfold) as (Hlow & Hall & Hhit). split; [|split].
    + intros b0 Hb0. destruct (best_step_keeps m s c b0 Hb0) as (b1 & Hb1 & Hle).
      specialize (Hlow b1 Hb1). lia.
    + intros s' t Hin Hc Ht. apply elem_of_cons in Hin as [-> | Hin].
      * destruct (best_step_records m s t Ht) as (b1 & Hb1 & Hle).
        rewrite Hc in Hb1. specialize (Hlow b1 Hb1). lia.
      * eapply Hall; eassumption.
    + destruct Hhit as [Hstep | (s' & Hin & Hc & Ht)].
      * apply best_step_origin in Hstep as [Hm | [Hc Ht]]; [left; exact Hm|].
        right. exists s. split; [left | auto].
      * right. exists s'. split; [by right | auto].
Qed.

Lemma fold_best_present (l : list Split) (m : gmap (option string) Z) (c : option string) :
  is_Some (m !! c) ∨ (∃ s t, s ∈ l ∧ control_code s = c ∧ split_time s = Some t) →
  is_Some (fold_left best_step l m !! c).
Proof.
  revert m. induction l as [|s l IH]; intros m Hsrc; simpl.
  - destruct Hsrc as [Hm | (s & t & Hin & _)]; [exact Hm | inversion Hin].
  - apply IH. destruct Hsrc as [[b0 Hm] | (s' & t & Hin & Hc & Ht)].
    + left. destruct (best_step_keeps m s c b0 Hm) as (b1 & Hb1 & _). by exists b1.
    + apply elem_of_cons in Hin as [-> | Hin].
      * left. destruct (best_step_records m s t Ht) as (b1 & Hb1 & _).
        rewrite Hc in Hb1. by exists b1.
      * right. exists s', t. auto.
Qed.

Lemma best_as_one_fold (result_list : list Person) (m : gmap (option string) Z) :
  fold_left best_person result_list m = fold_left best_step (all_splits result_list) m.
Proof.
  revert m. induction result_list as [|p rl IH]; intros m; simpl; [reflexivity|].
  rewrite fold_left_app. apply IH.
Qed.

Lemma elem_of_all_splits (result_list : list Person) (s : Split) :
  s ∈ all_splits result_list ↔ ∃ p, p ∈ result_list ∧ s ∈ splits p.
Proof.
  unfold all_splits. rewrite list_elem_of_In, in_flat_map.
  split; intros (p & Hp & Hs); exists p; revert Hp Hs;
    rewrite !list_elem_of_In; auto.
Qed.

(** The best time of a control is a lower bound of the split times recorded
    there and is one of them. *)
Lemma best_is_minimum (result_list : list Person) (c : option string) (b : Z) :
  _compute_best_split_times result_list !! c = Some b →
  (∀ t, recorded_at result_list c t → b ≤ t) ∧ recorded_at result_list c b.
Proof.
  unfold _compute_best_split_times. rewrite best_as_one_fold. intros Hb.
  apply fold_best_lookup in Hb as (_ & Hall & Hhit). split.
  - intros t (p & s & Hp & Hs & Hc & Ht). apply (Hall s t); [|assumption..].
    apply elem_of_all_splits. by exists p.
  - destruct Hhit as [Hempty | (s & Hin & Hc & Ht)]; [by rewrite lookup_empty in Hempty|].
    apply elem_of_all_splits in Hin as (p & Hp & Hs). by exists p, s.
Qed.

(** Every control with a recorded split time has an entry. *)
Lemma best_is_present (result_list : list Person) (c : option string) (t : Z) :
  recorded_at result_list c t → is_Some (_compute_best_split_times result_list !! c).
Proof.
  intros (p & s & Hp & Hs & Hc & Ht).
  unfold _compute_best_split_times. rewrite best_as_one_fold.
  apply fold_best_present. right. exists s, t. split; [|auto].
  apply elem_of_all_splits. by exists p.
Qed.

(** C5: for every control code [c] of the best-split-times mapping, the
    recorded value is at most every present split time of every competitor
    at [c] and equals one of them; a control at which no competitor has a
    present split time is not in the mapping (and only such a control is
    missing from it). *)
Theorem best_split_times_are_achieved_minima (result_list : list Person) (c : option string) :
  (∀ b, _compute_best_split_times result_list !! c = Some b →
        (∀ p s t, p ∈ result_list → s ∈ splits p → control_code s = c →
                  split_time s = Some t → b ≤ t)
        ∧ (∃ p s, p ∈ result_list ∧ s ∈ splits p ∧ control_code s = c ∧
                  split_time s = Some b))
  ∧ (_compute_best_split_times result_list !! c = None ↔
     ∀ p s, p ∈ result_list → s ∈ splits p → control_code s = c → split_time s = None).
Proof.
  split.
  - intros b Hb. apply best_is_minimum in Hb as [Hlow Hhit]. split; [|exact Hhit].
    intros p s t Hp Hs Hc Ht. apply Hlow. by exists p, s.
  - split.
    + intros Hnone p s Hp Hs Hc. destruct (split_time s) as [t|] eqn:Ht; [|reflexivity].
      assert (Hrec : recorded_at result_list c t) by (by exists p, s).
      apply best_is_present in Hrec as [b Hb]. congruence.
    + intros Hall. destruct (_compute_best_split_times result_list !! c) as [b|] eqn:Hb;
        [|reflexivity].
      apply best_is_minimum in Hb as [_ (p & s & Hp & Hs & Hc & Ht)].
      rewrite (Hall p s Hp Hs Hc) in Ht. discriminate.
Qed.

(** ** The annotation pass *)

(** What one run of the loop body gives, case by case. *)
Lemma analyse_split_cases (best : gmap (option string) Z) (s : Split) :
  analyse_split best s =
  match best !! control_code s with
  | None => Raise KeyError
  | Some b =>
      match split_time s with
      | None =>
          Ok (mkSplit (control_code s) (time s) None (Some (mkAnalysis None None)))
      | Some t =>
          if b =? 0 then Raise ZeroDivisionError
          else if quotient_overflows (t - b) b then Raise OverflowError
          else Ok (mkSplit (control_code s) (time s) (Some t)
                     (Some (mkAnalysis (Some (t - b))
                              (Some (float_mul_int (round_quotient (t - b) b) 100)))))
      end
  end.
Proof.
  unfold analyse_split, subscript, truediv.
  destruct (best !! control_code s) as [b|]; simpl; [|reflexivity].
  destruct (split_time s) as [t|]; simpl; [|reflexivity].
  destruct (b =? 0); simpl; [reflexivity|].
  destruct (quotient_overflows (t - b) b); reflexivity.
Qed.

Lemma analyse_split_frame (best : gmap (option string) Z) (s s' : Split) :
  analyse_split best s = Ok s' → same_punch s s'.
Proof.
  rewrite analyse_split_cases. unfold same_punch.
  destruct (best !! control_code s) as [b|]; [|discriminate].
  destruct (split_time s) as [t|] eqn:Ht.
  - destruct (b =? 0); [discriminate|].
    destruct (quotient_overflows (t - b) b); [discriminate|].
    intros [= <-]. simpl. auto.
  - intros [= <-]. simpl. auto.
Qed.

Lemma analyse_person_Ok (best : gmap (option string) Z) (p p' : Person) :
  analyse_person best p = Ok p' →
  same_person p p' ∧ Forall2 (λ s s', analyse_split best s = Ok s') (splits p) (splits p').
Proof.
  unfold analyse_person. intros Hrun. bind_inv Hrun. injection Hrun as <-.
  apply for_each_Ok in Ha. split; [|exact Ha].
  unfold same_person. simpl. repeat (split; [reflexivity|]).
  eapply Forall2_impl; [exact Ha|]. intros s s'. apply analyse_split_frame.
Qed.

Lemma add_split_analysis_Ok (result_list result_list' : list Person)
    (best : gmap (option string) Z) :
  _add_split_analysis result_list best = Ok result_list' →
  Forall2 (λ p p', analyse_person best p = Ok p') result_list result_list'.
Proof. apply for_each_Ok. Qed.

Lemma add_split_analysis_frame (result_list result_list' : list Person)
    (best : gmap (option string) Z) :
  _add_split_analysis result_list best = Ok result_list' →
  Forall2 same_person result_list result_list'.
Proof.
  intros Hrun. apply add_split_analysis_Ok in Hrun.
  eapply Forall2_impl; [exact Hrun|]. intros p p' Hp. by apply analyse_person_Ok in Hp as [? _].
Qed.

(** A split of the annotated list comes from a split of the list before. *)
Lemma annotated_split_origin (result_list result_list' : list Person)
    (best : gmap (option string) Z) (p' : Person) (s' : Split) :
  _add_split_analysis result_list best = Ok result_list' →
  p' ∈ result_list' → s' ∈ splits p' →
  ∃ p s, p ∈ result_list ∧ s ∈ splits p ∧ analyse_split best s = Ok s'.
Proof.
  intros Hrun Hp' Hs'. apply add_split_analysis_Ok in Hrun.
  apply list_elem_of_lookup in Hp' as [i Hi].
  destruct (Forall2_lookup_r _ _ _ _ _ Hrun Hi) as (p & Hp & Hpp').
  apply analyse_person_Ok in Hpp' as [_ Hsplits].
  apply list_elem_of_lookup in Hs' as [j Hj].
  destruct (Forall2_lookup_r _ _ _ _ _ Hsplits Hj) as (s & Hs & Hss').
  exists p, s. split; [|split; [|exact Hss']]; apply list_elem_of_lookup; eauto.
Qed.

(** The first pass reads only the control code and the split time. *)
Lemma best_step_same_punch (m : gmap (option string) Z) (s s' : Split) :
  same_punch s s' → best_step m s' = best_step m s.
Proof. intros (Hc & _ & Ht). unfold best_step. by rewrite Hc, Ht. Qed.

Lemma fold_best_same_punch (l l' : list Split) (m : gmap (option string) Z) :
  Forall2 same_punch l l' → fold_left best_step l' m = fold_left best_step l m.
Proof.
  intros Hall. revert m. induction Hall as [|s s' l l' Hs _ IH]; intros m; simpl;
    [reflexivity|].
  rewrite (best_step_same_punch m s s' Hs). apply IH.
Qed.

Lemma best_same_person (result_list result_list' : list Person) :
  Forall2 same_person result_list result_list' →
  _compute_best_split_times result_list' = _compute_best_split_times result_list.
Proof.
  unfold _compute_best_split_times. generalize (∅ : gmap (option string) Z).
  intros m Hall. revert m.
  induction Hall as [|p p' rl rl' Hp _ IH]; intros m; simpl; [reflexivity|].
  unfold best_person at 2 4.
  destruct Hp as (_ & _ & _ & _ & _ & Hsplits).
  rewrite (fold_best_same_punch _ _ m Hsplits). apply IH.
Qed.

(** After the pass the gap of a present split time is its distance to the
    best time of its control, which is not negative. *)
Lemma gap_after_pass (result_list result_list' : list Person) (p' : Person) (s' : Split) (t : Z) :
  _add_split_analysis result_list (_compute_best_split_times result_list) = Ok result_list' →
  p' ∈ result_list' → s' ∈ splits p' → split_time s' = Some t →
  ∃ b a, _compute_best_split_times result_list !! control_code s' = Some b ∧
         analysis s' = Some a ∧ split_gap a = Some (t - b) ∧ 0 ≤ t - b.
Proof.
  intros Hrun Hp' Hs' Ht.
  destruct (annotated_split_origin _ _ _ _ _ Hrun Hp' Hs') as (p & s & Hp & Hs & Hss').
  pose proof (analyse_split_frame _ _ _ Hss') as (Hc & _ & Hst).
  rewrite Ht in Hst. rewrite analyse_split_cases in Hss'. rewrite Hc.
  destruct (_compute_best_split_times result_list !! control_code s) as [b|] eqn:Hb;
    [|discriminate].
  rewrite <- Hst in Hss'.
  destruct (b =? 0); [discriminate|].
  destruct (quotient_overflows (t - b) b); [discriminate|].
  injection Hss' as <-. simpl.
  exists b, (mkAnalysis (Some (t - b)) (Some (float_mul_int (round_quotient (t - b) b) 100))).
  repeat (split; [reflexivity|]).
  apply best_is_minimum in Hb as [Hlow _].
  assert (b ≤ t) by (apply Hlow; by exists p, s). lia.
Qed.

(** ** Lookups *)

Lemma found_Ok (o : option Element) (e : Element) : found o = Ok e ↔ o = Some e.
Proof. destruct o; simpl; split; congruence. Qed.

Lemma text_of_Ok (o : option Element) (t : option string) :
  text_of o = Ok t ↔ ∃ e, o = Some e ∧ text e = t.
Proof.
  destruct o as [e|]; simpl; split.
  - intros [= <-]. by exists e.
  - intros (e' & [= <-] & <-). reflexivity.
  - discriminate.
  - intros (e' & Hno & _). discriminate.
Qed.

Lemma found_Raise (o : option Element) (e : exn) :
  found o = Raise e → o = None ∧ e = AttributeError.
Proof. destruct o; simpl; [discriminate|]. intros [= <-]. auto. Qed.

Lemma text_of_Raise (o : option Element) (e : exn) :
  text_of o = Raise e → o = None ∧ e = AttributeError.
Proof. destruct o; simpl; [discriminate|]. intros [= <-]. auto. Qed.

(** The event data extractor raises nothing but [AttributeError]. *)
Lemma extract_event_data_Raise (root : Element) (e : exn) :
  _extract_event_data root = Raise e → e = AttributeError.
Proof.
  unfold _extract_event_data. intros Hrun.
  repeat (apply bind_Raise in Hrun as [Hrun | (? & _ & Hrun)];
          [first [by apply found_Raise in Hrun as [_ ?]
                 | by apply text_of_Raise in Hrun as [_ ?]] |]).
  discriminate.
Qed.

(** ** [process_xml], step by step *)

Lemma process_xml_Ok (root : Element) (rep : Report) :
  process_xml root = Ok rep →
  ∃ ev rl first,
    _extract_event_data root = Ok ev ∧
    _extract_result_list root = Ok rl ∧
    _add_split_analysis rl (_compute_best_split_times rl) = Ok (results rep) ∧
    first_item (results rep) = Ok first ∧
    event_data rep = ev ∧ winning_time rep = total_time first.
Proof.
  unfold process_xml. intros Hrun.
  bind_inv Hrun. bind_inv Hrun. bind_inv Hrun. bind_inv Hrun. injection Hrun as <-.
  simpl. eauto 10.
Qed.

Lemma process_xml_raises (root : Element) (rl : list Person) :
  _extract_result_list root = Ok rl →
  raises (_add_split_analysis rl (_compute_best_split_times rl)) →
  raises (process_xml root).
Proof.
  intros Hrl Hpass. unfold process_xml.
  destruct (_extract_event_data root) as [ev|e]; simpl; [|by exists e].
  rewrite Hrl. simpl. by apply raises_bind_l.
Qed.

(** C1: whenever [process_xml] returns a report, its [winning_time] is the
    [total_time] of [results[0]], the person extracted from the first
    [PersonResult] element in document order.  No total time of another
    competitor enters the value. *)
Theorem winning_time_is_first_total_time (root : Element) (rep : Report) :
  process_xml root = Ok rep →
  ∃ first rest pr prs p,
    results rep = first :: rest ∧ winning_time rep = total_time first ∧
    findall_desc "PersonResult" root = pr :: prs ∧
    _extract_person_result pr = Ok p ∧ total_time first = total_time p.
Proof.
  intros Hrun.
  apply process_xml_Ok in Hrun as (ev & rl & first & _ & Hrl & Hpass & Hfirst & _ & Hwin).
  destruct (results rep) as [|first' rest] eqn:Hres; simpl in Hfirst; [discriminate|].
  injection Hfirst as ->.
  apply add_split_analysis_frame in Hpass.
  inversion Hpass as [|p ? rl0 ? Hsame _]; subst.
  unfold _extract_result_list in Hrl. apply for_each_Ok in Hrl.
  inversion Hrl as [|pr ? prs ? Hpr _]; subst.
  destruct Hsame as (_ & _ & _ & _ & Htotal & _).
  exists first, rest, pr, prs, p. auto.
Qed.

(** C6: in a report [process_xml] returns, every split with a present
    [split_time] has a [split_gap] equal to its [split_time] minus the best
    split time of its control, and that gap is at least 0. *)
Theorem split_gap_is_distance_to_best (root : Element) (rep : Report)
    (p : Person) (s : Split) (t : Z) :
  process_xml root = Ok rep →
  p ∈ results rep → s ∈ splits p → split_time s = Some t →
  ∃ b a, _compute_best_split_times (results rep) !! control_code s = Some b ∧
         analysis s = Some a ∧ split_gap a = Some (t - b) ∧ 0 ≤ t - b.
Proof.
  intros Hrun Hp Hs Ht.
  apply process_xml_Ok in Hrun as (ev & rl & first & _ & _ & Hpass & _).
  rewrite (best_same_person rl (results rep)) by (by eapply add_split_analysis_frame).
  by eapply gap_after_pass.
Qed.

(** C9: the annotation pass, run with any best-split-times mapping, leaves
    the name, club, status, position and total time of every person and the
    control code, time and split time of every split as they were; and in a
    report [process_xml] returns the event data is the value
    [_extract_event_data] gave and the results are the extracted persons, up
    to the two analysis keys. *)
Theorem annotation_changes_only_the_analysis :
  (∀ (result_list result_list' : list Person) (best : gmap (option string) Z),
      _add_split_analysis result_list best = Ok result_list' →
      Forall2 same_person result_list result_list')
  ∧ (∀ (root : Element) (rep : Report),
      process_xml root = Ok rep →
      _extract_event_data root = Ok (event_data rep) ∧
      ∃ rl, _extract_result_list root = Ok rl ∧ Forall2 same_person rl (results rep)).
Proof.
  split.
  - intros rl rl' best. apply add_split_analysis_frame.
  - intros root rep Hrun.
    apply process_xml_Ok in Hrun as (ev & rl & first & Hev & Hrl & Hpass & _ & -> & _).
    split; [exact Hev|]. exists rl. split; [exact Hrl|].
    by eapply add_split_analysis_frame.
Qed.

(** C10: on a document whose event and class data are extracted without
    error and which has no [PersonResult] element, [process_xml] raises the
    [IndexError] of [result_list[0]]; it returns no report with an empty
    result list. *)
Theorem no_competitor_raises_IndexError (root : Element) :
  returns (_extract_event_data root) →
  findall_desc "PersonResult" root = [] →
  process_xml root = Raise IndexError.
Proof.
  intros [ev Hev] Hnone. unfold process_xml, _extract_result_list.
  rewrite Hev, Hnone. reflexivity.
Qed.

(** ** Split computation *)

Lemma punch_time_missing (split : Element) :
  get split "status" = Some "Missing" → punch_time split = Ok None.
Proof. intros Hst. unfold punch_time. by rewrite bool_decide_eq_true_2. Qed.

(** Every record's split time is the guarded subtraction of the time of the
    record before it (of [previous_time] for the first one) from its own. *)
Lemma split_loop_chain (previous_time : option Z) (elems : list Element) (recs : list Split) :
  split_loop previous_time elems = Ok recs →
  Forall2 (λ el r, punch_time el = Ok (time r)) elems recs
  ∧ (∀ r, recs !! 0%nat = Some r → split_time r = split_time_of previous_time (time r))
  ∧ (∀ i r0 r1, recs !! i = Some r0 → recs !! S i = Some r1 →
                split_time r1 = split_time_of (time r0) (time r1)).
Proof.
  revert previous_time recs. induction elems as [|el elems IH]; intros prev recs Hrun;
    simpl in Hrun.
  - injection Hrun as <-. split; [constructor|]. split; intros; discriminate.
  - bind_inv Hrun. bind_inv Hrun. bind_inv Hrun. injection Hrun as <-.
    destruct (IH _ _ Ha1) as (Htimes & Hhead & Hsucc). split; [|split].
    + constructor; [exact Ha0 | exact Htimes].
    + intros r [= <-]. reflexivity.
    + intros [|i] r0 r1 Hr0 Hr1; simpl in Hr0, Hr1.
      * injection Hr0 as <-. simpl. by apply Hhead.
      * by eapply Hsucc.
Qed.


Lemma split_time_of_None_r (p : option Z) : split_time_of p None = None.
Proof. by destruct p. Qed.

(** C4: in the splits computed for a competitor, a punch whose status is
    [Missing] has no time and no split time; the punch right after it has no
    split time, whatever its own time; and when that following punch has a
    time, the punch after it gets its own time minus that time as split time
    (and none when it has no time itself). *)
Theorem missing_punch_poisons_only_next_split
    (person_result : Element) (recs : list Split) (i : nat) (el : Element) :
  _compute_split_information person_result = Ok recs →
  findall_desc "SplitTime" person_result !! i = Some el →
  get el "status" = Some "Missing" →
  (∃ r, recs !! i = Some r ∧ time r = None ∧ split_time r = None)
  ∧ (∀ r1, recs !! S i = Some r1 → split_time r1 = None)
  ∧ (∀ r1 r2 t1, recs !! S i = Some r1 → time r1 = Some t1 →
                 recs !! S (S i) = Some r2 →
                 (∀ t2, time r2 = Some t2 → split_time r2 = Some (t2 - t1))
                 ∧ (time r2 = None → split_time r2 = None)).
Proof.
  unfold _compute_split_information. intros Hrun Hel Hmissing.
  apply split_loop_chain in Hrun as (Htimes & Hhead & Hsucc).
  destruct (Forall2_lookup_l _ _ _ _ _ Htimes Hel) as (r & Hr & Htime).
  rewrite (punch_time_missing el Hmissing) in Htime. injection Htime as Htime.
  symmetry in Htime.
  assert (Hsplit : split_time r = None).
  { destruct i as [|i].
    - rewrite (Hhead r Hr), Htime. apply split_time_of_None_r.
    - destruct (lookup_lt_is_Some_2 recs i) as [r0 Hr0].
      { apply lookup_lt_Some in Hr. lia. }
      rewrite (Hsucc i r0 r Hr0 Hr), Htime. apply split_time_of_None_r. }
  split; [by exists r|]. split.
  - intros r1 Hr1. rewrite (Hsucc i r r1 Hr Hr1), Htime. reflexivity.
  - intros r1 r2 t1 Hr1 Ht1 Hr2. rewrite (Hsucc (S i) r1 r2 Hr1 Hr2), Ht1. split.
    + intros t2 ->. reflexivity.
    + intros ->. reflexivity.
Qed.

(** ** Person extraction *)

(** C7: a person that [_extract_person_result] returns has a position if
    and only if its status is the string [OK]; the position is then the
    integer read from the [Position] child of the [Result] element, and with
    any other status it is absent whatever the document holds.  The status
    is the text of the [Status] element of the result. *)
Theorem position_present_iff_status_OK (person_result : Element) (p : Person) :
  _extract_person_result person_result = Ok p →
  (is_Some (position p) ↔ status p = Some "OK")
  ∧ (status p = Some "OK" →
     ∃ result e z, find_desc "Result" person_result = Some result ∧
                   find_child "Position" result = Some e ∧
                   py_int (text e) = Ok z ∧ position p = Some z)
  ∧ (status p ≠ Some "OK" → position p = None)
  ∧ (∃ result st, find_desc "Result" person_result = Some result ∧
                  find_desc "Status" result = Some st ∧ status p = text st).
Proof.
  unfold _extract_person_result. intros Hrun.
  bind_inv Hrun. bind_inv Hrun. bind_inv Hrun. bind_inv Hrun. bind_inv Hrun.
  apply bind_Ok in Hrun as (result & Hresult & Hrun).
  apply bind_Ok in Hrun as (status & Hstatus & Hrun).
  apply bind_Ok in Hrun as (position & Hposition & Hrun).
  bind_inv Hrun. bind_inv Hrun. bind_inv Hrun. injection Hrun as <-. simpl.
  apply found_Ok in Hresult. apply text_of_Ok in Hstatus as (st & Hst & <-).
  destruct (decide (text st = Some "OK")) as [Hok | Hno].
  - rewrite bool_decide_eq_true_2 in Hposition by exact Hok.
    apply bind_Ok in Hposition as (ptext & Hptext & Hposition).
    apply bind_Ok in Hposition as (z & Hz & Hposition). injection Hposition as <-.
    apply text_of_Ok in Hptext as (e & He & <-).
    split; [|split; [|split]].
    + split; [auto | eauto].
    + intros _. exists result, e, z. auto.
    + intros Hne. contradiction.
    + by exists result, st.
  - rewrite bool_decide_eq_false_2 in Hposition by exact Hno. injection Hposition as <-.
    split; [|split; [|split]].
    + split; [intros [z Hz]; discriminate | intros Hok; contradiction].
    + intros Hok. contradiction.
    + reflexivity.
    + by exists result, st.
Qed.

(** ** Errors of the annotation pass *)

(** A split without split time is annotated with two absent values, provided
    its control has an entry: the subscript comes before the test. *)
Lemma analyse_absent_split (best : gmap (option string) Z) (s : Split) :
  split_time s = None →
  analyse_split best s =
  match best !! control_code s with
  | Some _ => Ok (mkSplit (control_code s) (time s) None (Some (mkAnalysis None None)))
  | None => Raise KeyError
  end.
Proof. intros Ht. rewrite analyse_split_cases, Ht. reflexivity. Qed.

Lemma analyse_split_zero (best : gmap (option string) Z) (s : Split) (t : Z) :
  best !! control_code s = Some 0 → split_time s = Some t →
  analyse_split best s = Raise ZeroDivisionError.
Proof. intros Hb Ht. rewrite analyse_split_cases, Hb, Ht. reflexivity. Qed.

Lemma analyse_split_nonzero (best : gmap (option string) Z) (s : Split) :
  (∀ c b, best !! c = Some b → b ≠ 0) →
  analyse_split best s ≠ Raise ZeroDivisionError.
Proof.
  intros Hnz. rewrite analyse_split_cases.
  destruct (best !! control_code s) as [b|] eqn:Hb; [|discriminate].
  destruct (split_time s) as [t|]; [|discriminate].
  destruct (Z.eqb_spec b 0) as [-> | _]; [by apply Hnz in Hb|].
  destruct (quotient_overflows (t - b) b); discriminate.
Qed.

Lemma add_split_analysis_Raise (result_list : list Person)
    (best : gmap (option string) Z) (e : exn) :
  _add_split_analysis result_list best = Raise e →
  ∃ p s, p ∈ result_list ∧ s ∈ splits p ∧ analyse_split best s = Raise e.
Proof.
  intros Hrun. apply for_each_Raise in Hrun as (p & Hp & Hrun).
  unfold analyse_person in Hrun.
  apply bind_Raise in Hrun as [Hrun | (? & _ & Hrun)]; [|discriminate].
  apply for_each_Raise in Hrun as (s & Hs & Hrun). by exists p, s.
Qed.

Lemma add_split_analysis_raises (result_list : list Person)
    (best : gmap (option string) Z) (p : Person) (s : Split) :
  p ∈ result_list → s ∈ splits p → raises (analyse_split best s) →
  raises (_add_split_analysis result_list best).
Proof.
  intros Hp Hs Hraise. apply (for_each_raises _ _ p Hp).
  unfold analyse_person. apply raises_bind_l. by apply (for_each_raises _ _ s Hs).
Qed.

(** C3 (as amended): when the best split time of a control is exactly 0,
    annotating a split with a present split time at that control raises
    [ZeroDivisionError], and both the pass and [process_xml] raise.  When no
    best split time is 0, neither the pass nor [process_xml] raises
    [ZeroDivisionError]; a split with a present split time is then annotated
    unless the quotient of its gap by the best time is too large for a
    float, in which case [OverflowError] is raised. *)
Theorem zero_best_split_raises_division_error (root : Element) (rl : list Person) :
  _extract_result_list root = Ok rl →
  (∀ c, _compute_best_split_times rl !! c = Some 0 →
        (∀ s t, control_code s = c → split_time s = Some t →
                analyse_split (_compute_best_split_times rl) s = Raise ZeroDivisionError)
        ∧ raises (_add_split_analysis rl (_compute_best_split_times rl))
        ∧ raises (process_xml root))
  ∧ ((∀ c b, _compute_best_split_times rl !! c = Some b → b ≠ 0) →
     _add_split_analysis rl (_compute_best_split_times rl) ≠ Raise ZeroDivisionError
     ∧ process_xml root ≠ Raise ZeroDivisionError
     ∧ ∀ p s t, p ∈ rl → s ∈ splits p → split_time s = Some t →
         ∃ b, _compute_best_split_times rl !! control_code s = Some b ∧
              analyse_split (_compute_best_split_times rl) s =
              if quotient_overflows (t - b) b then Raise OverflowError
              else Ok (mkSplit (control_code s) (time s) (Some t)
                         (Some (mkAnalysis (Some (t - b))
                                  (Some (float_mul_int (round_quotient (t - b) b) 100)))))).
Proof.
  intros Hrl. split.
  - intros c Hzero.
    assert (Hpass : raises (_add_split_analysis rl (_compute_best_split_times rl))).
    { destruct (best_is_minimum rl c 0 Hzero) as [_ (p & s & Hp & Hs & Hc & Ht)].
      apply (add_split_analysis_raises _ _ p s Hp Hs).
      exists ZeroDivisionError. apply (analyse_split_zero _ s 0); [by rewrite Hc | exact Ht]. }
    split; [|split].
    + intros s t Hc Ht. apply (analyse_split_zero _ s t); [by rewrite Hc | exact Ht].
    + exact Hpass.
    + by apply (process_xml_raises root rl).
  - intros Hnz.
    assert (Hpass : _add_split_analysis rl (_compute_best_split_times rl)
                    ≠ Raise ZeroDivisionError).
    { intros Hrun. apply add_split_analysis_Raise in Hrun as (p & s & _ & _ & Hrun).
      by apply analyse_split_nonzero in Hrun. }
    split; [exact Hpass|]. split.
    + unfold process_xml. intros Hrun.
      apply bind_Raise in Hrun as [Hev | (ev & _ & Hrun)];
        [by apply extract_event_data_Raise in Hev|].
      rewrite Hrl in Hrun. simpl in Hrun.
      apply bind_Raise in Hrun as [Hrun | (rl' & _ & Hrun)]; [contradiction|].
      apply bind_Raise in Hrun as [Hrun | (? & _ & Hrun)]; [|discriminate].
      destruct rl'; discriminate.
    + intros p s t Hp Hs Ht.
      destruct (best_is_present rl (control_code s) t) as [b Hb]; [by exists p, s|].
      exists b. split; [exact Hb|].
      rewrite analyse_split_cases, Hb, Ht.
      destruct (Z.eqb_spec b 0) as [-> | _]; [by apply Hnz in Hb | reflexivity].
Qed.

(** ** Which documents make the extraction raise *)

Lemma raises_Raise {A : Type} (e : exn) : raises (@Raise A e).
Proof. by exists e. Qed.

Lemma raises_Ok {A : Type} (a : A) : ¬ raises (Ok a).
Proof. intros [e He]. discriminate. Qed.

Lemma raises_then_Ok {A B : Type} (m : result A) (f : A -> B) :
  raises (x <- m ;; Ok (f x)) ↔ raises m.
Proof.
  destruct m as [a|e]; simpl; [|split; intros _; apply raises_Raise].
  split; intros Hr; by apply raises_Ok in Hr.
Qed.

Ltac unfold_malformed :=
  unfold malformed, malformed_person, lacks_event, lacks_class, lacks_name, lacks_club,
    lacks_result, bad_punch, no_int in *.

Ltac use_lookups :=
  repeat match goal with
         | Heq : ?l = _ |- context [?l] => rewrite Heq
         | Heq : ?l = _, Hc : context [?l] |- _ => rewrite Heq in Hc
         end.

(** Closes [raises (Raise e) ↔ P] when the recorded lookups make [P] hold. *)
Ltac raised :=
  split; [intros _; unfold_malformed; use_lookups; simpl; naive_solver
         | intros _; apply raises_Raise].

Lemma split_loop_raises (previous_time : option Z) (elems : list Element) :
  raises (split_loop previous_time elems) ↔ ∃ el, el ∈ elems ∧ bad_punch el.
Proof.
  revert previous_time. induction elems as [|el elems IH]; intros prev; simpl.
  - split; [intros Hr; by apply raises_Ok in Hr | intros (el & Hin & _); inversion Hin].
  - assert (Hrest : ∀ time r,
               ¬ bad_punch el →
               raises (splits <- split_loop time elems ;; Ok (r :: splits))
               ↔ ∃ el', el' ∈ el :: elems ∧ bad_punch el').
    { intros time r Hgood. rewrite (raises_then_Ok _ (cons r)), IH. split.
      - intros (el' & Hin & Hbad). exists el'. split; [by right | exact Hbad].
      - intros (el' & Hin & Hbad). apply elem_of_cons in Hin as [-> | Hin]; [contradiction|].
        by exists el'. }
    assert (Hhere : bad_punch el → ∃ el', el' ∈ el :: elems ∧ bad_punch el').
    { intros Hbad. exists el. split; [left | exact Hbad]. }
    unfold punch_time.
    destruct (find_child "ControlCode" el) as [cc|] eqn:Hcc; simpl.
    2: { split; [intros _; apply Hhere; by left | intros _; apply raises_Raise]. }
    destruct (decide (get el "status" = Some "Missing")) as [Hmiss | Hpresent].
    { rewrite bool_decide_eq_true_2 by exact Hmiss. simpl. apply Hrest.
      unfold bad_punch. rewrite Hcc. naive_solver. }
    rewrite bool_decide_eq_false_2 by exact Hpresent.
    destruct (find_child "Time" el) as [tm|] eqn:Htm; simpl.
    2: { split; [intros _; apply Hhere; right; by rewrite Htm | intros _; apply raises_Raise]. }
    destruct (text tm) as [txt|] eqn:Htxt; simpl.
    2: { split; [intros _; apply Hhere; right; by rewrite Htm; simpl; rewrite Htxt
                | intros _; apply raises_Raise]. }
    destruct (int_of_str txt) as [z|] eqn:Hz; simpl.
    2: { split; [intros _; apply Hhere; right; by rewrite Htm; simpl; rewrite Htxt
                | intros _; apply raises_Raise]. }
    apply Hrest. unfold bad_punch. rewrite Hcc, Htm. simpl. rewrite Htxt, Hz. naive_solver.
Qed.

(** The event data are extracted unless a lookup finds no element; the text
    of the elements found may be absent. *)
Lemma extract_event_data_raises (root : Element) :
  raises (_extract_event_data root) ↔ lacks_event root ∨ lacks_class root.
Proof.
  unfold _extract_event_data.
  destruct (find_desc "Event" root) as [event|] eqn:Hevent; simpl; [|raised].
  destruct (find_desc "Name" event) as [name|] eqn:Hname; simpl; [|raised].
  destruct (find_desc "Date" event) as [date|] eqn:Hdate; simpl; [|raised].
  destruct (find_desc "ClassResult" root) as [class_result|] eqn:Hclass; simpl; [|raised].
  destruct (find_desc "Name" class_result) as [class_name|] eqn:Hcname; simpl; [|raised].
  split; [intros Hr; by apply raises_Ok in Hr|].
  unfold_malformed. use_lookups. naive_solver.
Qed.

(** A person is extracted unless a lookup finds no element, an integer text
    is absent or not a literal, or a punch is bad. *)
Lemma extract_person_result_raises (person_result : Element) :
  raises (_extract_person_result person_result) ↔ malformed_person person_result.
Proof.
  unfold _extract_person_result, _compute_split_information.
  destruct (find_desc "Name" person_result) as [name|] eqn:Hname; simpl; [|raised].
  destruct (find_child "Family" name) as [family|] eqn:Hfamily; simpl; [|raised].
  destruct (find_child "Given" name) as [given|] eqn:Hgiven; simpl; [|raised].
  destruct (find_desc "Organisation" person_result) as [org|] eqn:Horg; simpl; [|raised].
  destruct (find_child "Name" org) as [club|] eqn:Hclub; simpl; [|raised].
  destruct (find_desc "Result" person_result) as [result|] eqn:Hresult; simpl; [|raised].
  destruct (find_desc "Status" result) as [status|] eqn:Hstatus; simpl; [|raised].
  assert (Htail : ∀ position,
    (text status = Some "OK" → ¬ no_int (find_child "Position" result)) →
    raises (t <- text_of (find_desc "Time" result) ;;
            total_time <- py_int t ;;
            splits <- split_loop (Some 0) (findall_desc "SplitTime" person_result) ;;
            Ok (mkPerson (format (text given) ++ " " ++ format (text family))
                  (text club) (text status) position total_time splits))
    ↔ malformed_person person_result).
  { intros position Hpos.
    destruct (find_desc "Time" result) as [tm|] eqn:Htm; simpl; [|raised].
    destruct (text tm) as [txt|] eqn:Htxt; simpl; [|raised].
    destruct (int_of_str txt) as [z|] eqn:Hz; simpl; [|raised].
    rewrite raises_then_Ok, split_loop_raises.
    unfold_malformed. use_lookups. simpl. use_lookups. naive_solver. }
  destruct (decide (text status = Some "OK")) as [Hok | Hno].
  - rewrite bool_decide_eq_true_2 by exact Hok.
    destruct (find_child "Position" result) as [pos|] eqn:Hpos; simpl; [|raised].
    destruct (text pos) as [ptxt|] eqn:Hptxt; simpl; [|raised].
    destruct (int_of_str ptxt) as [pz|] eqn:Hpz; simpl; [|raised].
    apply Htail. intros _. simpl. rewrite Hptxt, Hpz. discriminate.
  - rewrite bool_decide_eq_false_2 by exact Hno. simpl.
    apply Htail. intros Hok. contradiction.
Qed.

(** C8 (as amended): if a lookup of a required element finds nothing (the
    event, its name or date, the class result or its name, a competitor's
    name, family or given name, organisation or its name, result, status,
    time, the position of a result with status [OK], the control code of a
    punch or the time of a punch not marked missing), or the text of an
    integer element (total time, position of an [OK] result, time of a punch
    not marked missing) is absent or no integer literal, then [process_xml]
    raises and returns no report, also when the fault is in one competitor
    only: the others are not processed into a partial report. *)
Theorem malformed_document_raises (root : Element) :
  malformed root → raises (process_xml root).
Proof.
  intros Hbad. unfold process_xml.
  destruct (_extract_event_data root) as [ev|e] eqn:Hev; simpl; [|apply raises_Raise].
  apply raises_bind_l.
  destruct Hbad as [Hevent | [Hclass | (pr & Hin & Hpr)]].
  - exfalso. apply (raises_Ok ev). rewrite <- Hev. apply extract_event_data_raises. by left.
  - exfalso. apply (raises_Ok ev). rewrite <- Hev. apply extract_event_data_raises. by right.
  - unfold _extract_result_list. apply (for_each_raises _ _ pr Hin).
    by apply extract_person_result_raises.
Qed.

(** * Further properties of the code *)

(** ** Split computation *)

(** The records of the loop, element by element. *)
Lemma split_loop_records (previous_time : option Z) (elems : list Element) (recs : list Split) :
  split_loop previous_time elems = Ok recs →
  Forall2 (λ el r, text_of (find_child "ControlCode" el) = Ok (control_code r) ∧
                   punch_time el = Ok (time r) ∧ analysis r = None) elems recs.
Proof.
  revert previous_time recs. induction elems as [|el elems IH]; intros prev recs Hrun;
    simpl in Hrun.
  - injection Hrun as <-. constructor.
  - bind_inv Hrun. bind_inv Hrun. bind_inv Hrun. injection Hrun as <-.
    constructor; [simpl; auto | by eapply IH].
Qed.

(** X3: [_compute_split_information] returns one record per [SplitTime]
    element of the person, in document order: the record's control code is
    the text of the element's [ControlCode] child, its time is absent for a
    punch marked [Missing] and the integer of the [Time] child otherwise, and
    it carries no analysis yet. *)
Theorem one_split_record_per_punch (person_result : Element) (recs : list Split) :
  _compute_split_information person_result = Ok recs →
  length recs = length (findall_desc "SplitTime" person_result)
  ∧ ∀ i el, findall_desc "SplitTime" person_result !! i = Some el →
      ∃ r cc, recs !! i = Some r ∧ find_child "ControlCode" el = Some cc ∧
              control_code r = text cc ∧ analysis r = None ∧
              (get el "status" = Some "Missing" → time r = None) ∧
              (get el "status" ≠ Some "Missing" →
               ∃ tm z, find_child "Time" el = Some tm ∧ py_int (text tm) = Ok z ∧
                       time r = Some z).
Proof.
  unfold _compute_split_information. intros Hrun.
  apply split_loop_records in Hrun. split.
  - symmetry. by eapply Forall2_length.
  - intros i el Hel.
    destruct (Forall2_lookup_l _ _ _ _ _ Hrun Hel) as (r & Hr & Hcc & Htime & Hnone).
    apply text_of_Ok in Hcc as (cc & Hcc & Htext).
    exists r, cc. repeat (split; [done|]). split.
    + intros Hmiss. rewrite (punch_time_missing el Hmiss) in Htime. by injection Htime.
    + intros Hpresent. unfold punch_time in Htime.
      rewrite bool_decide_eq_false_2 in Htime by exact Hpresent.
      apply bind_Ok in Htime as (t & Ht & Htime).
      apply bind_Ok in Htime as (z & Hz & Htime). injection Htime as Htime.
      apply text_of_Ok in Ht as (tm & Htm & <-). by exists tm, z.
Qed.

(** X1: the split time of a competitor's first punch is its time: the
    running reference starts at 0. *)
Theorem first_split_time_is_first_time (person_result : Element) (recs : list Split)
    (r : Split) :
  _compute_split_information person_result = Ok recs →
  recs !! 0%nat = Some r → split_time r = time r.
Proof.
  unfold _compute_split_information. intros Hrun Hr.
  apply split_loop_chain in Hrun as (_ & Hhead & _).
  rewrite (Hhead r Hr). destruct (time r) as [t|]; simpl; [|reflexivity].
  f_equal. lia.
Qed.

(** X4: from the second punch on, a split time is present exactly when the
    punch and the punch before it both have a time, and it is then the
    difference of the two times, whatever its sign. *)
Theorem split_time_is_difference_of_consecutive_times
    (person_result : Element) (recs : list Split) (i : nat) (r0 r1 : Split) :
  _compute_split_information person_result = Ok recs →
  recs !! i = Some r0 → recs !! S i = Some r1 →
  (is_Some (split_time r1) ↔ is_Some (time r0) ∧ is_Some (time r1))
  ∧ (∀ t0 t1, time r0 = Some t0 → time r1 = Some t1 → split_time r1 = Some (t1 - t0)).
Proof.
  unfold _compute_split_information. intros Hrun Hr0 Hr1.
  apply split_loop_chain in Hrun as (_ & _ & Hsucc).
  rewrite (Hsucc i r0 r1 Hr0 Hr1). split.
  - destruct (time r0) as [t0|], (time r1) as [t1|]; simpl; split;
      first [by intros [? [=]] | by intros [[? [=]] [? [=]]] | eauto].
  - intros t0 t1 -> ->. reflexivity.
Qed.

(** The sum of the split times of a chain of records whose times are all
    present telescopes to the last time. *)
Lemma chain_sum (p : Z) (recs : list Split) :
  (∀ r, recs !! 0%nat = Some r → split_time r = split_time_of (Some p) (time r)) →
  (∀ i r0 r1, recs !! i = Some r0 → recs !! S i = Some r1 →
              split_time r1 = split_time_of (time r0) (time r1)) →
  Forall (λ r, is_Some (time r)) recs →
  sum_split_times recs = default p (last recs ≫= time) - p.
Proof.
  revert p. induction recs as [|r recs IH]; intros p Hhead Hsucc Hall.
  - simpl. lia.
  - apply Forall_cons in Hall as [[t Ht] Hall].
    assert (Hsum : sum_split_times (r :: recs) = (t - p) + sum_split_times recs).
    { unfold sum_split_times. simpl. rewrite (Hhead r eq_refl), Ht. reflexivity. }
    assert (Hrest : sum_split_times recs = default t (last recs ≫= time) - t).
    { apply IH; [| |exact Hall].
      - intros r' Hr'. rewrite <- Ht. by apply (Hsucc 0%nat r r').
      - intros i r0 r1 Hr0 Hr1. by apply (Hsucc (S i) r0 r1). }
    rewrite Hsum, Hrest. destruct recs as [|r' recs].
    + simpl. rewrite Ht. simpl. lia.
    + rewrite last_cons_cons. destruct (last (r' :: recs)) as [rl|] eqn:Hl.
      * apply last_Some_elem_of in Hl. rewrite Forall_forall in Hall.
        destruct (Hall rl Hl) as [tl Htl]. simpl. rewrite Htl. simpl. lia.
      * apply last_None in Hl. discriminate.
Qed.

(** X2: as long as no punch up to a control is missing, the split times up
    to that control add up to the time at the control. *)
Theorem split_times_add_up_to_time
    (person_result : Element) (recs : list Split) (n : nat) (r : Split) :
  _compute_split_information person_result = Ok recs →
  recs !! n = Some r →
  (∀ j r', (j ≤ n)%nat → recs !! j = Some r' → is_Some (time r')) →
  time r = Some (sum_split_times (take (S n) recs)).
Proof.
  unfold _compute_split_information. intros Hrun Hr Hpresent.
  apply split_loop_chain in Hrun as (_ & Hhead & Hsucc).
  assert (Hlast : last (take (S n) recs) = Some r).
  { rewrite last_lookup, length_take_le by (apply lookup_lt_Some in Hr; lia).
    simpl. rewrite lookup_take_lt by lia. exact Hr. }
  rewrite (chain_sum 0 (take (S n) recs)).
  - rewrite Hlast. simpl. destruct (Hpresent n r (le_n n) Hr) as [t Ht].
    rewrite Ht. simpl. f_equal. lia.
  - intros r' Hr'. rewrite lookup_take_lt in Hr' by lia. by apply Hhead.
  - intros i r0 r1 Hr0 Hr1.
    apply lookup_take_Some in Hr0 as [Hr0 _]. apply lookup_take_Some in Hr1 as [Hr1 _].
    by apply (Hsucc i).
  - apply Forall_lookup. intros j r' Hr'.
    apply lookup_take_Some in Hr' as [Hr' Hj]. apply (Hpresent j r'); [lia | exact Hr'].
Qed.

(** ** Best split times, as a whole *)

(** One step of the first pass, control by control: the entry of the split's
    control becomes the smaller of the entry and the split time. *)
Lemma best_step_lookup (m : gmap (option string) Z) (s : Split) (c : option string) :
  best_step m s !! c =
  union_with (λ a b, Some (Z.min a b)) (m !! c)
    (if decide (control_code s = c) then split_time s else None).
Proof.
  unfold best_step. destruct (split_time s) as [t|].
  - destruct (decide (control_code s = c)) as [-> | Hne].
    + destruct (m !! c) as [b|] eqn:Hb.
      * destruct (Z.ltb_spec t b).
        -- rewrite lookup_insert_eq. simpl. f_equal. lia.
        -- rewrite Hb. simpl. f_equal. lia.
      * by rewrite lookup_insert_eq.
    + assert (Hsame : <[control_code s := t]> m !! c = m !! c) by by apply lookup_insert_ne.
      destruct (m !! control_code s) as [b|]; [destruct (t <? b)|];
        rewrite ?Hsame; by destruct (m !! c).
  - destruct (decide (control_code s = c)); by destruct (m !! c).
Qed.

Lemma min_union_assoc (x y z : option Z) :
  union_with (λ a b, Some (Z.min a b)) (union_with (λ a b, Some (Z.min a b)) x y) z =
  union_with (λ a b, Some (Z.min a b)) x (union_with (λ a b, Some (Z.min a b)) y z).
Proof. destruct x, y, z; simpl; try reflexivity. f_equal. lia. Qed.

Lemma fold_best_from (l : list Split) (m : gmap (option string) Z) (c : option string) :
  fold_left best_step l m !! c =
  union_with (λ a b, Some (Z.min a b)) (m !! c) (fold_left best_step l ∅ !! c).
Proof.
  revert m. induction l as [|s l IH]; intros m; simpl.
  - rewrite lookup_empty. by destruct (m !! c).
  - rewrite (IH (best_step m s)), (IH (best_step ∅ s)), !best_step_lookup, lookup_empty.
    rewrite min_union_assoc. f_equal.
    by destruct (if decide (control_code s = c) then split_time s else None).
Qed.

(** X7: the best split times of two result lists put together are, control
    by control, the smaller of the best times of each list; a control that
    only one of them records keeps that list's best time. *)
Theorem best_split_times_of_joined_lists (rl1 rl2 : list Person) :
  _compute_best_split_times (rl1 ++ rl2) =
  union_with (λ a b, Some (Z.min a b))
    (_compute_best_split_times rl1) (_compute_best_split_times rl2).
Proof.
  apply map_eq. intros c. rewrite lookup_union_with.
  unfold _compute_best_split_times. rewrite !best_as_one_fold.
  unfold all_splits. rewrite flat_map_app, fold_left_app. apply fold_best_from.
Qed.

(** The entry of a control is the least split time recorded there. *)
Lemma best_lookup_iff (result_list : list Person) (c : option string) (b : Z) :
  _compute_best_split_times result_list !! c = Some b ↔
  recorded_at result_list c b ∧ ∀ t, recorded_at result_list c t → b ≤ t.
Proof.
  split.
  - intros Hb. apply best_is_minimum in Hb as [Hlow Hhit]. auto.
  - intros [Hhit Hlow]. destruct (best_is_present _ _ _ Hhit) as [b' Hb'].
    rewrite Hb'. f_equal.
    apply best_is_minimum in Hb' as [Hlow' Hhit'].
    specialize (Hlow b' Hhit'). specialize (Hlow' b Hhit). lia.
Qed.

(** X6: the best split times do not depend on the order of the
    competitors. *)
Theorem best_split_times_ignore_order (rl rl' : list Person) :
  rl ≡ₚ rl' → _compute_best_split_times rl = _compute_best_split_times rl'.
Proof.
  intros Hperm. apply map_eq. intros c. apply option_eq. intros b.
  rewrite !best_lookup_iff.
  assert (Hrec : ∀ t, recorded_at rl c t ↔ recorded_at rl' c t).
  { intros t. unfold recorded_at.
    split; intros (p & s & Hp & Hrest); exists p, s; split; try exact Hrest.
    - by rewrite <- Hperm.
    - by rewrite Hperm. }
  split; intros [Hhit Hlow]; (split; [by apply Hrec | intros t Ht; by apply Hlow, Hrec]).
Qed.

(** ** The annotation pass, as a whole *)

Lemma for_each_returns {A B : Type} (f : A -> result B) (xs : list A) :
  returns (for_each f xs) ↔ ∀ x, x ∈ xs → returns (f x).
Proof.
  induction xs as [|x xs IH]; simpl.
  - split; [intros _ x Hin; inversion Hin | intros _; by eexists].
  - split.
    + intros [ys Hys]. bind_inv Hys. bind_inv Hys.
      intros x' [-> | Hin]%elem_of_cons; [by eexists|].
      apply IH; [by eexists | exact Hin].
    + intros Hall. destruct (Hall x) as [y Hy]; [left|]. rewrite Hy. simpl.
      destruct (proj2 IH) as [ys Hys]; [intros x' Hin; apply Hall; by right|].
      rewrite Hys. simpl. by eexists.
Qed.

Lemma returns_then_Ok {A B : Type} (m : result A) (f : A -> B) :
  returns (x <- m ;; Ok (f x)) ↔ returns m.
Proof.
  destruct m as [a|e]; simpl.
  - split; intros _; by eexists.
  - split; intros [? [=]].
Qed.

Lemma analyse_split_returns (best : gmap (option string) Z) (s : Split) :
  returns (analyse_split best s) ↔
  ∃ b, best !! control_code s = Some b ∧
       ∀ t, split_time s = Some t → b ≠ 0 ∧ quotient_overflows (t - b) b = false.
Proof.
  rewrite analyse_split_cases.
  destruct (best !! control_code s) as [b|].
  2: { split; [intros [? [=]] | intros (b & [=] & _)]. }
  destruct (split_time s) as [t|].
  2: { split; [intros _; exists b; split; [done | intros t [=]] | intros _; by eexists]. }
  destruct (Z.eqb_spec b 0) as [-> | Hnz].
  { split; [intros [? [=]] | intros (b & [= <-] & Hok)].
    by destruct (Hok t eq_refl). }
  destruct (quotient_overflows (t - b) b) eqn:Hov.
  - split; [intros [? [=]] | intros (b' & [= <-] & Hok)].
    destruct (Hok t eq_refl) as [_ Hno]. congruence.
  - split; [|intros _; by eexists].
    intros _. exists b. split; [done|]. by intros t' [= <-].
Qed.

Lemma analyse_person_returns (best : gmap (option string) Z) (p : Person) :
  returns (analyse_person best p) ↔ ∀ s, s ∈ splits p → returns (analyse_split best s).
Proof.
  unfold analyse_person.
  rewrite (returns_then_Ok _ (mkPerson (name p) (club p) (status p) (position p)
                                (total_time p))).
  apply for_each_returns.
Qed.

(** X8: [_add_split_analysis] completes exactly when the control of every
    split has an entry in [best_split_times] and, for every split with a
    split time, that entry is not 0 and the quotient of the gap by it fits a
    float. *)
Theorem add_split_analysis_completes_iff
    (result_list : list Person) (best_split_times : gmap (option string) Z) :
  returns (_add_split_analysis result_list best_split_times) ↔
  ∀ p s, p ∈ result_list → s ∈ splits p → annotatable best_split_times s.
Proof.
  unfold _add_split_analysis, annotatable. rewrite for_each_returns. split.
  - intros Hall p s Hp Hs. apply analyse_split_returns.
    by apply (analyse_person_returns best_split_times p); [apply Hall|].
  - intros Hall p Hp. apply analyse_person_returns. intros s Hs.
    apply analyse_split_returns. by apply (Hall p s).
Qed.

Lemma analyse_split_again (best : gmap (option string) Z) (s s' : Split) :
  analyse_split best s = Ok s' → analyse_split best s' = Ok s'.
Proof.
  intros Hrun. pose proof (analyse_split_frame _ _ _ Hrun) as (Hc & Htime & Ht).
  rewrite analyse_split_cases in *. rewrite Hc, Ht, Htime.
  destruct (best !! control_code s) as [b|]; [|discriminate].
  destruct (split_time s) as [t|].
  - destruct (b =? 0); [discriminate|].
    destruct (quotient_overflows (t - b) b); [discriminate|]. exact Hrun.
  - exact Hrun.
Qed.

Lemma Forall2_diag_r {A B : Type} (P : A → B → Prop) (Q : B → B → Prop)
    (l : list A) (k : list B) :
  (∀ x y, P x y → Q y y) → Forall2 P l k → Forall2 Q k k.
Proof. intros HPQ Hall. induction Hall; constructor; eauto. Qed.

Lemma analyse_person_again (best : gmap (option string) Z) (p p' : Person) :
  analyse_person best p = Ok p' → analyse_person best p' = Ok p'.
Proof.
  unfold analyse_person. intros Hrun. bind_inv Hrun. injection Hrun as <-. simpl.
  apply for_each_Ok in Ha.
  assert (Hagain : for_each (analyse_split best) a = Ok a).
  { apply for_each_Ok. eapply Forall2_diag_r; [|exact Ha].
    intros s s'. apply analyse_split_again. }
  rewrite Hagain. reflexivity.
Qed.

(** X9: running [_add_split_analysis] again on the list it has annotated,
    with the same best split times, changes nothing. *)
Theorem add_split_analysis_is_idempotent
    (result_list result_list' : list Person) (best_split_times : gmap (option string) Z) :
  _add_split_analysis result_list best_split_times = Ok result_list' →
  _add_split_analysis result_list' best_split_times = Ok result_list'.
Proof.
  unfold _add_split_analysis. intros Hrun. apply for_each_Ok in Hrun.
  apply for_each_Ok. eapply Forall2_diag_r; [|exact Hrun].
  intros p p'. apply analyse_person_again.
Qed.

(** ** Which exception comes from where *)

Lemma py_int_Raise (t : option string) (e : exn) :
  py_int t = Raise e → extraction_error e.
Proof.
  unfold py_int, extraction_error. destruct t as [s|]; [destruct (int_of_str s)|];
    intros [= <-]; auto.
Qed.

Lemma found_Raise_kind (o : option Element) (e : exn) :
  found o = Raise e → extraction_error e.
Proof. intros [_ ->]%found_Raise. by left. Qed.

Lemma text_of_Raise_kind (o : option Element) (e : exn) :
  text_of o = Raise e → extraction_error e.
Proof. intros [_ ->]%text_of_Raise. by left. Qed.

(** Follows a raised exception through the binds of an extraction function
    down to the lookup or the conversion that raised it. *)
Ltac trace_raise H :=
  repeat (apply bind_Raise in H as [H | (? & _ & H)];
          [first [by eapply found_Raise_kind | by eapply text_of_Raise_kind
                 | by eapply py_int_Raise | idtac] |]);
  try discriminate.

Lemma punch_time_Raise (split : Element) (e : exn) :
  punch_time split = Raise e → extraction_error e.
Proof.
  unfold punch_time. destruct (bool_decide _); [discriminate|].
  intros Hrun. trace_raise Hrun.
Qed.

Lemma split_loop_Raise (previous_time : option Z) (elems : list Element) (e : exn) :
  split_loop previous_time elems = Raise e → extraction_error e.
Proof.
  revert previous_time. induction elems as [|el elems IH]; intros prev; simpl;
    [discriminate|].
  intros Hrun.
  apply bind_Raise in Hrun as [Hrun | (? & _ & Hrun)]; [by eapply text_of_Raise_kind|].
  apply bind_Raise in Hrun as [Hrun | (? & _ & Hrun)]; [by eapply punch_time_Raise|].
  apply bind_Raise in Hrun as [Hrun | (? & _ & Hrun)]; [by eapply IH | discriminate].
Qed.

Lemma extract_person_result_Raise (person_result : Element) (e : exn) :
  _extract_person_result person_result = Raise e → extraction_error e.
Proof.
  unfold _extract_person_result, _compute_split_information. intros Hrun.
  do 7 (apply bind_Raise in Hrun as [Hrun | (? & _ & Hrun)];
        [first [by eapply found_Raise_kind | by eapply text_of_Raise_kind] |]).
  apply bind_Raise in Hrun as [Hrun | (? & _ & Hrun)].
  { destruct (bool_decide _); [|discriminate]. trace_raise Hrun. }
  do 2 (apply bind_Raise in Hrun as [Hrun | (? & _ & Hrun)];
        [first [by eapply text_of_Raise_kind | by eapply py_int_Raise] |]).
  apply bind_Raise in Hrun as [Hrun | (? & _ & Hrun)]; [by eapply split_loop_Raise|].
  discriminate.
Qed.

Lemma analyse_split_Raise (best : gmap (option string) Z) (s : Split) (e : exn) :
  analyse_split best s = Raise e → analysis_error e.
Proof.
  rewrite analyse_split_cases. unfold analysis_error.
  destruct (best !! control_code s) as [b|]; [|intros [= <-]; auto].
  destruct (split_time s) as [t|]; [|discriminate].
  destruct (b =? 0); [intros [= <-]; auto|].
  destruct (quotient_overflows (t - b) b); [intros [= <-]; auto | discriminate].
Qed.

(** The four places [process_xml] can raise from. *)
Lemma process_xml_Raise (root : Element) (e : exn) :
  process_xml root = Raise e →
  (_extract_event_data root = Raise e ∧ e = AttributeError)
  ∨ (returns (_extract_event_data root) ∧
     ((∃ pr, pr ∈ findall_desc "PersonResult" root ∧
             _extract_person_result pr = Raise e ∧ extraction_error e)
      ∨ (∃ rl p s, _extract_result_list root = Ok rl ∧ p ∈ rl ∧ s ∈ splits p ∧
                   analyse_split (_compute_best_split_times rl) s = Raise e ∧
                   analysis_error e)
      ∨ (findall_desc "PersonResult" root = [] ∧ e = IndexError))).
Proof.
  unfold process_xml. intros Hrun.
  apply bind_Raise in Hrun as [Hev | (ev & Hev & Hrun)].
  { left. split; [exact Hev | by eapply extract_event_data_Raise]. }
  right. split; [by exists ev|].
  apply bind_Raise in Hrun as [Hrl | (rl & Hrl & Hrun)].
  { left. apply for_each_Raise in Hrl as (pr & Hin & Hpr). exists pr.
    split; [exact Hin|]. split; [exact Hpr | by eapply extract_person_result_Raise]. }
  right. simpl in Hrun.
  apply bind_Raise in Hrun as [Hpass | (rl' & Hpass & Hrun)].
  { left. apply add_split_analysis_Raise in Hpass as (p & s & Hp & Hs & Hpass).
    exists rl, p, s. repeat (split; [done|]). by eapply analyse_split_Raise. }
  right. apply bind_Raise in Hrun as [Hfirst | (? & _ & Hrun)]; [|discriminate].
  destruct rl' as [|p' rl']; [|discriminate]. injection Hfirst as <-.
  apply add_split_analysis_Ok in Hpass. inversion Hpass; subst.
  unfold _extract_result_list in Hrl. apply for_each_Ok in Hrl. inversion Hrl; subst.
  auto.
Qed.

(** X12: [process_xml] raises [IndexError] exactly when the event data are
    extracted without error and the document has no [PersonResult] element. *)
Theorem IndexError_iff_no_competitor (root : Element) :
  process_xml root = Raise IndexError ↔
  returns (_extract_event_data root) ∧ findall_desc "PersonResult" root = [].
Proof.
  split.
  - intros Hrun. apply process_xml_Raise in Hrun
      as [[_ [=]] | [Hev [(pr & _ & _ & Hkind) | [(rl & p & s & _ & _ & _ & _ & Hkind)
                                                 | [Hnone _]]]]].
    + by destruct Hkind as [[=] | [[=] | [=]]].
    + by destruct Hkind as [[=] | [[=] | [=]]].
    + auto.
  - intros [[ev Hev] Hnone]. unfold process_xml, _extract_result_list.
    rewrite Hev, Hnone. reflexivity.
Qed.


(** X14: when [process_xml] raises [KeyError], the competitors were all
    extracted and one of them has a split without split time at a control
    where no competitor has a split time. *)
Theorem KeyError_only_from_unrecorded_control (root : Element) :
  process_xml root = Raise KeyError →
  ∃ rl p s, _extract_result_list root = Ok rl ∧ p ∈ rl ∧ s ∈ splits p ∧
            split_time s = None ∧ unrecorded rl (control_code s).
Proof.
  intros Hrun. apply process_xml_Raise in Hrun
    as [[_ [=]] | [_ [(pr & _ & _ & Hkind) | [(rl & p & s & Hrl & Hp & Hs & Hrun & _)
                                             | [_ [=]]]]]].
  { by destruct Hkind as [[=] | [[=] | [=]]]. }
  exists rl, p, s. repeat (split; [done|]).
  rewrite analyse_split_cases in Hrun.
  destruct (_compute_best_split_times rl !! control_code s) as [b|] eqn:Hb.
  { destruct (split_time s) as [t|]; [|discriminate].
    destruct (b =? 0); [discriminate|].
    destruct (quotient_overflows (t - b) b); discriminate. }
  assert (Hnone : unrecorded rl (control_code s)).
  { intros p' s' Hp' Hs' Hc. destruct (split_time s') as [t|] eqn:Ht; [|reflexivity].
    destruct (best_is_present rl (control_code s) t) as [b Hb']; [by exists p', s'|].
    congruence. }
  split; [by apply (Hnone p s) | exact Hnone].
Qed.

(** X13: if the competitors are extracted and one of them has a split at a
    control where no competitor has a split time, [process_xml] raises: the
    pass looks the control up for every split. *)
Theorem unrecorded_control_aborts (root : Element) (rl : list Person)
    (p : Person) (s : Split) :
  _extract_result_list root = Ok rl →
  p ∈ rl → s ∈ splits p → unrecorded rl (control_code s) →
  raises (process_xml root).
Proof.
  intros Hrl Hp Hs Hnone. apply (process_xml_raises root rl Hrl).
  apply (add_split_analysis_raises _ _ p s Hp Hs).
  exists KeyError. rewrite analyse_split_cases.
  destruct (_compute_best_split_times rl !! control_code s) as [b|] eqn:Hb; [|reflexivity].
  apply best_is_minimum in Hb as [_ (p' & s' & Hp' & Hs' & Hc & Ht)].
  rewrite (Hnone p' s' Hp' Hs' Hc) in Ht. discriminate.
Qed.

(** ** The report, as a whole *)

(** X5: a report has one result per [PersonResult] element of the document,
    in document order: each result is the person extracted from the element
    at the same place, with the analysis added to its splits. *)
Theorem results_follow_document_order (root : Element) (rep : Report) :
  process_xml root = Ok rep →
  Forall2 (λ pr p, ∃ p0, _extract_person_result pr = Ok p0 ∧ same_person p0 p)
    (findall_desc "PersonResult" root) (results rep).
Proof.
  intros Hrun.
  apply process_xml_Ok in Hrun as (ev & rl & first & _ & Hrl & Hpass & _).
  unfold _extract_result_list in Hrl. apply for_each_Ok in Hrl.
  apply add_split_analysis_frame in Hpass.
  eapply Forall2_trans; [|exact Hrl | exact Hpass].
  intros pr p0 p Hp0 Hsame. by exists p0.
Qed.

(** X10: in a report every split carries the two analysis values, and each
    of them is absent exactly when the split time is absent. *)
Theorem every_split_is_annotated (root : Element) (rep : Report) (p : Person) (s : Split) :
  process_xml root = Ok rep → p ∈ results rep → s ∈ splits p →
  ∃ a, analysis s = Some a ∧
       (split_gap a = None ↔ split_time s = None) ∧
       (percentage_gap a = None ↔ split_time s = None).
Proof.
  intros Hrun Hp Hs.
  apply process_xml_Ok in Hrun as (ev & rl & first & _ & _ & Hpass & _).
  destruct (annotated_split_origin _ _ _ _ _ Hpass Hp Hs) as (p0 & s0 & _ & _ & Hrun).
  rewrite analyse_split_cases in Hrun.
  destruct (_compute_best_split_times rl !! control_code s0) as [b|]; [|discriminate].
  destruct (split_time s0) as [t|].
  - destruct (b =? 0); [discriminate|].
    destruct (quotient_overflows (t - b) b); [discriminate|].
    injection Hrun as <-. simpl. eexists. split; [reflexivity|]. simpl.
    split; split; discriminate.
  - injection Hrun as <-. simpl. eexists. split; [reflexivity|]. simpl.
    split; split; reflexivity.
Qed.

(** X11: in a report, every control of the best split times has a split
    whose split time is the best one and whose gap is 0. *)
Theorem best_split_has_gap_zero (root : Element) (rep : Report)
    (c : option string) (b : Z) :
  process_xml root = Ok rep →
  _compute_best_split_times (results rep) !! c = Some b →
  ∃ p s a, p ∈ results rep ∧ s ∈ splits p ∧ control_code s = c ∧
           split_time s = Some b ∧ analysis s = Some a ∧ split_gap a = Some 0.
Proof.
  intros Hrun Hb.
  apply process_xml_Ok in Hrun as (ev & rl & first & _ & _ & Hpass & _).
  destruct (best_is_minimum _ _ _ Hb) as [_ (p & s & Hp & Hs & Hc & Ht)].
  destruct (gap_after_pass _ _ p s b Hpass Hp Hs Ht) as (b' & a & Hb' & Ha & Hgap & _).
  rewrite <- (best_same_person rl (results rep)) in Hb'
    by (by eapply add_split_analysis_frame).
  rewrite Hc, Hb in Hb'. injection Hb' as <-.
  exists p, s, a. repeat (split; [done|]). rewrite Hgap. f_equal. lia.
Qed.

(** X16: in a report, the gaps of two splits at the same control differ by
    as much as their split times: the gaps rank the competitors at a control
    as the split times do. *)
Theorem gaps_differ_like_split_times (root : Element) (rep : Report)
    (p1 p2 : Person) (s1 s2 : Split) (t1 t2 : Z) :
  process_xml root = Ok rep →
  p1 ∈ results rep → s1 ∈ splits p1 → p2 ∈ results rep → s2 ∈ splits p2 →
  control_code s1 = control_code s2 →
  split_time s1 = Some t1 → split_time s2 = Some t2 →
  ∃ a1 a2 g1 g2, analysis s1 = Some a1 ∧ analysis s2 = Some a2 ∧
                 split_gap a1 = Some g1 ∧ split_gap a2 = Some g2 ∧
                 g1 - g2 = t1 - t2.
Proof.
  intros Hrun Hp1 Hs1 Hp2 Hs2 Hc Ht1 Ht2.
  apply process_xml_Ok in Hrun as (ev & rl & first & _ & _ & Hpass & _).
  destruct (gap_after_pass _ _ p1 s1 t1 Hpass Hp1 Hs1 Ht1) as (b1 & a1 & Hb1 & Ha1 & Hg1 & _).
  destruct (gap_after_pass _ _ p2 s2 t2 Hpass Hp2 Hs2 Ht2) as (b2 & a2 & Hb2 & Ha2 & Hg2 & _).
  rewrite Hc, Hb2 in Hb1. injection Hb1 as <-.
  exists a1, a2, (t1 - b2), (t2 - b2). repeat (split; [done|]). lia.
Qed.

(** X17: [process_xml] returns a report exactly when the event data and
    every competitor are extracted without error, there is at least one
    competitor, and every split can be annotated against the best split
    times: its control has an entry, and when it has a split time the entry
    is not 0 and the quotient of the gap by the entry fits a float. *)
Theorem process_xml_returns_iff (root : Element) :
  returns (process_xml root) ↔
  ∃ ev rl, _extract_event_data root = Ok ev ∧ _extract_result_list root = Ok rl ∧
           rl ≠ [] ∧
           ∀ p s, p ∈ rl → s ∈ splits p → annotatable (_compute_best_split_times rl) s.
Proof.
  split.
  - intros [rep Hrun].
    apply process_xml_Ok in Hrun as (ev & rl & first & Hev & Hrl & Hpass & Hfirst & _).
    exists ev, rl. repeat (split; [done|]). split.
    + intros ->. unfold _add_split_analysis in Hpass. simpl in Hpass.
      injection Hpass as Hnil. rewrite <- Hnil in Hfirst. discriminate.
    + intros p s Hp Hs. unfold annotatable. apply analyse_split_returns.
      apply (analyse_person_returns _ p); [|exact Hs].
      apply (proj1 (for_each_returns _ rl)); [by eexists | exact Hp].
  - intros (ev & rl & Hev & Hrl & Hne & Hall). unfold process_xml.
    rewrite Hev, Hrl. simpl.
    destruct (proj2 (for_each_returns (analyse_person (_compute_best_split_times rl)) rl))
      as [rl' Hpass].
    { intros p Hp. apply analyse_person_returns. intros s Hs.
      apply analyse_split_returns. by apply (Hall p s). }
    unfold _add_split_analysis. rewrite Hpass. simpl.
    apply for_each_Ok in Hpass. inversion Hpass; subst; [exfalso; by apply Hne|].
    simpl. by eexists.
Qed.

End Model.

(** * The properties on the sample documents *)

Section Samples.
#[local] Existing Instance cpython.
Import Sample.

(** Gives the value a run evaluates to as the witness of the goal. *)
Ltac provide m :=
  let r := eval vm_compute in m in
  lazymatch r with
  | Ok ?a => exists a
  | Some ?a => exists a
  end.

(** The same for a run that evaluates to a list of one item. *)
Ltac provide_only m :=
  let r := eval vm_compute in m in
  lazymatch r with
  | Ok [?a] => exists a
  | Some [?a] => exists a
  end.

(** The report of the two finishers: the first listed has the larger total
    time, and it is the winning time. *)
Lemma slower_first_winning_time :
  ∃ rep, process_xml slower_first = Ok rep ∧ winning_time rep = 300 ∧
         (∃ p, p ∈ results rep ∧ total_time p = 250) ∧
         ∃ first rest pr prs p,
           results rep = first :: rest ∧ winning_time rep = total_time first ∧
           findall_desc "PersonResult" slower_first = pr :: prs ∧
           _extract_person_result pr = Ok p ∧ total_time first = total_time p.
Proof.
  provide (process_xml slower_first).
  split; [vm_compute; reflexivity|]. split; [reflexivity|]. split.
  - eexists. split; [right; left | reflexivity].
  - apply (winning_time_is_first_total_time slower_first). vm_compute. reflexivity.
Defined.

(** C2: on the document with one competitor whose only punch is marked
    missing, the extracted split has no split time, its control has no entry
    in the best-split-times mapping, and the annotation pass, hence
    [process_xml], raises [KeyError] instead of setting the two analysis
    values to absent. *)
Theorem absent_split_at_unrecorded_control_raises_KeyError :
  ∃ p s, _extract_result_list lone_missing = Ok [p] ∧ splits p = [s] ∧
         split_time s = None ∧
         _compute_best_split_times [p] !! control_code s = None ∧
         _add_split_analysis [p] (_compute_best_split_times [p]) = Raise KeyError ∧
         process_xml lone_missing = Raise KeyError.
Proof.
  provide_only (_extract_result_list lone_missing).
  provide_only (splits <$> (to_option (_extract_result_list lone_missing) ≫= head)).
  repeat split; vm_compute; reflexivity.
Qed.

(** One competitor punches the control after 1 second, the other after
    [10^400] seconds: no best split time is 0 and the percentage computation
    raises [OverflowError]. *)
Lemma nonzero_best_split_still_raises :
  ∃ rl, _extract_result_list huge_split = Ok rl ∧
        (∀ c b, _compute_best_split_times rl !! c = Some b → b ≠ 0) ∧
        (∃ p s, p ∈ rl ∧ s ∈ splits p ∧ split_time s = Some (10 ^ 400) ∧
                _compute_best_split_times rl !! control_code s = Some 1 ∧
                analyse_split (_compute_best_split_times rl) s = Raise OverflowError) ∧
        _add_split_analysis rl (_compute_best_split_times rl) = Raise OverflowError ∧
        process_xml huge_split = Raise OverflowError.
Proof.
  provide (_extract_result_list huge_split).
  split; [vm_compute; reflexivity|].
  split; [|split; [|split; vm_compute; reflexivity]].
  2: { do 2 eexists. split; [right; left|]. split; [left|].
       repeat split; vm_compute; reflexivity. }
  intros c b.
  match goal with
  | |- ?m !! c = _ → _ => replace m with ({[ Some "31" := 1 ]} : gmap (option string) Z)
      by (vm_compute; reflexivity)
  end.
  intros [_ <-]%lookup_singleton_Some. discriminate.
Qed.

(** A first control punched at second 0 makes [process_xml] raise; the two
    finishers have no best split time of 0 and no division error. *)
Lemma zero_split_aborts :
  raises (process_xml zero_split) ∧ process_xml slower_first ≠ Raise ZeroDivisionError.
Proof.
  split.
  - assert (Hdoc : ∃ rl, _extract_result_list zero_split = Ok rl ∧
                         _compute_best_split_times rl !! Some "31" = Some 0).
    { provide (_extract_result_list zero_split). split; vm_compute; reflexivity. }
    destruct Hdoc as (rl & Hrl & Hzero).
    destruct (zero_best_split_raises_division_error zero_split rl Hrl) as [Hz _].
    apply (Hz (Some "31") Hzero).
  - assert (Hdoc : ∃ rl, _extract_result_list slower_first = Ok rl ∧
                         _compute_best_split_times rl
                         = <[Some "31" := 100]> {[ Some "32" := 150 ]}).
    { provide (_extract_result_list slower_first). split; vm_compute; reflexivity. }
    destruct Hdoc as (rl & Hrl & Hbest).
    destruct (zero_best_split_raises_division_error slower_first rl Hrl) as [_ Hnz].
    apply Hnz. rewrite Hbest. intros c b Hb.
    apply lookup_insert_Some in Hb as [[_ <-] | [_ Hb]]; [discriminate|].
    apply lookup_singleton_Some in Hb as [_ <-]. discriminate.
Defined.

(** The competitor whose second punch is missing: the third split time is
    absent, the fourth is 380 - 300. *)
Lemma gap_at_second_splits :
  ∃ recs, _compute_split_information gap_at_second = Ok recs ∧
          (time <$> recs) = [Some 100; None; Some 300; Some 380] ∧
          (split_time <$> recs) = [Some 100; None; None; Some 80] ∧
          (∃ r, recs !! 1%nat = Some r ∧ time r = None ∧ split_time r = None) ∧
          (∀ r1, recs !! 2%nat = Some r1 → split_time r1 = None) ∧
          (∀ r1 r2 t1, recs !! 2%nat = Some r1 → time r1 = Some t1 →
                       recs !! 3%nat = Some r2 →
                       (∀ t2, time r2 = Some t2 → split_time r2 = Some (t2 - t1))
                       ∧ (time r2 = None → split_time r2 = None)).
Proof.
  provide (_compute_split_information gap_at_second).
  split; [vm_compute; reflexivity|]. split; [reflexivity|]. split; [reflexivity|].
  apply (missing_punch_poisons_only_next_split gap_at_second _ 1 (missing "32")).
  - vm_compute. reflexivity.
  - vm_compute. reflexivity.
  - vm_compute. reflexivity.
Defined.

(** The best times of the two finishers: 100 at control 31. *)
Lemma slower_first_best_split_times :
  ∃ rl, _extract_result_list slower_first = Ok rl ∧
        _compute_best_split_times rl !! Some "31" = Some 100 ∧
        _compute_best_split_times rl !! Some "33" = None ∧
        (∀ p s t, p ∈ rl → s ∈ splits p → control_code s = Some "31" →
                  split_time s = Some t → 100 ≤ t) ∧
        (∃ p s, p ∈ rl ∧ s ∈ splits p ∧ control_code s = Some "31" ∧
                split_time s = Some 100).
Proof.
  provide (_extract_result_list slower_first). split; [vm_compute; reflexivity|].
  split; [vm_compute; reflexivity|]. split; [vm_compute; reflexivity|].
  apply (proj1 (best_split_times_are_achieved_minima _ (Some "31"))).
  vm_compute. reflexivity.
Defined.

(** The slower finisher's gap at control 31 is 120 - 100. *)
Lemma slower_first_gap :
  ∃ rep p s, process_xml slower_first = Ok rep ∧ results rep !! 0%nat = Some p ∧
             splits p !! 0%nat = Some s ∧ split_time s = Some 120 ∧
             ∃ b a, _compute_best_split_times (results rep) !! control_code s = Some b ∧
                    analysis s = Some a ∧ split_gap a = Some (120 - b) ∧ 0 ≤ 120 - b.
Proof.
  provide (process_xml slower_first).
  provide (r ← to_option (process_xml slower_first); head (results r)).
  provide (r ← to_option (process_xml slower_first); p ← head (results r); head (splits p)).
  split; [vm_compute; reflexivity|].
  split; [reflexivity|]. split; [reflexivity|]. split; [reflexivity|].
  eapply (split_gap_is_distance_to_best slower_first).
  - vm_compute. reflexivity.
  - left.
  - left.
  - reflexivity.
Defined.

(** A disqualified competitor has no position although the document gives
    one; a competitor with status [OK] has the one of the document. *)
Lemma positions_of_samples :
  (∃ p, _extract_person_result disqualified = Ok p ∧
        status p = Some "Disqualified" ∧ position p = None ∧
        (is_Some (position p) ↔ status p = Some "OK")) ∧
  (∃ p, _extract_person_result complete = Ok p ∧
        status p = Some "OK" ∧ position p = Some 1 ∧
        (is_Some (position p) ↔ status p = Some "OK")).
Proof.
  split.
  - provide (_extract_person_result disqualified).
    split; [vm_compute; reflexivity|]. split; [reflexivity|]. split; [reflexivity|].
    apply (position_present_iff_status_OK disqualified). vm_compute. reflexivity.
  - provide (_extract_person_result complete).
    split; [vm_compute; reflexivity|]. split; [reflexivity|]. split; [reflexivity|].
    apply (position_present_iff_status_OK complete). vm_compute. reflexivity.
Defined.

(** Every element is there but the event name, date, class name, family and
    given name, club and status have no text: no exception is raised and a
    report is returned. *)
Lemma absent_texts_are_carried :
  (∃ event name, find_desc "Event" no_texts = Some event ∧
                 find_desc "Name" event = Some name ∧ text name = None) ∧
  ∃ rep p, process_xml no_texts = Ok rep ∧ results rep = [p] ∧
           ev_name (event_data rep) = None ∧ ev_date (event_data rep) = None ∧
           ev_class (event_data rep) = None ∧
           name p = "None None" ∧ club p = None ∧ status p = None.
Proof.
  split.
  - provide (find_desc "Event" no_texts).
    provide (find_desc "Event" no_texts ≫= find_desc "Name").
    repeat split; vm_compute; reflexivity.
  - provide (process_xml no_texts).
    provide_only (results <$> to_option (process_xml no_texts)).
    split; [vm_compute; reflexivity|]. repeat split; reflexivity.
Qed.

(** The first competitor is extracted, the second has no organisation: no
    report is returned. *)
Lemma second_without_club_raises :
  returns (_extract_person_result complete) ∧ malformed second_without_club ∧
  raises (process_xml second_without_club).
Proof.
  assert (Hbad : malformed second_without_club).
  { right. right. exists clubless. split.
    - replace (findall_desc "PersonResult" second_without_club) with [complete; clubless]
        by (vm_compute; reflexivity).
      right. left.
    - right. left. unfold lacks_club.
      replace (find_desc "Organisation" clubless) with (@None Element)
        by (vm_compute; reflexivity).
      exact I. }
  split; [provide (_extract_person_result complete); vm_compute; reflexivity|].
  split; [exact Hbad|].
  apply (malformed_document_raises second_without_club Hbad).
Defined.

(** The report of the two finishers keeps the extracted event data and
    persons. *)
Lemma slower_first_frame :
  ∃ rep, process_xml slower_first = Ok rep ∧
         _extract_event_data slower_first = Ok (event_data rep) ∧
         ∃ rl, _extract_result_list slower_first = Ok rl ∧
               Forall2 same_person rl (results rep).
Proof.
  provide (process_xml slower_first). split; [vm_compute; reflexivity|].
  apply (proj2 annotation_changes_only_the_analysis slower_first). vm_compute. reflexivity.
Defined.

(** The document with an event and a class but no competitor. *)
Lemma no_competitor_IndexError :
  returns (_extract_event_data no_competitor) ∧
  findall_desc "PersonResult" no_competitor = [] ∧
  process_xml no_competitor = Raise IndexError.
Proof.
  assert (Hev : returns (_extract_event_data no_competitor))
    by (provide (_extract_event_data no_competitor); vm_compute; reflexivity).
  assert (Hnone : findall_desc "PersonResult" no_competitor = [])
    by (vm_compute; reflexivity).
  split; [exact Hev|]. split; [exact Hnone|].
  apply (no_competitor_raises_IndexError no_competitor Hev Hnone).
Defined.

(** ** The further properties on the sample documents *)

(** Gives the two items a run evaluates to as the witnesses of the goal. *)
Ltac provide_pair m :=
  let r := eval vm_compute in m in
  lazymatch r with
  | Ok [?a; ?b] => exists a, b
  | Some [?a; ?b] => exists a, b
  end.

(** The three punches at 100, 250 and 380 seconds give one record each. *)
Lemma steady_records :
  ∃ recs, _compute_split_information steady = Ok recs ∧
          (control_code <$> recs) = [Some "31"; Some "32"; Some "33"] ∧
          length recs = length (findall_desc "SplitTime" steady).
Proof.
  provide (_compute_split_information steady).
  split; [vm_compute; reflexivity|]. split; [reflexivity|].
  apply (one_split_record_per_punch steady). vm_compute. reflexivity.
Defined.

Lemma steady_first_split :
  ∃ recs r, _compute_split_information steady = Ok recs ∧ recs !! 0%nat = Some r ∧
            time r = Some 100 ∧ split_time r = time r.
Proof.
  provide (_compute_split_information steady).
  provide (to_option (_compute_split_information steady) ≫= (.!! 0%nat)).
  split; [vm_compute; reflexivity|]. split; [reflexivity|]. split; [reflexivity|].
  eapply (first_split_time_is_first_time steady); [vm_compute|]; reflexivity.
Defined.

Lemma steady_second_split :
  ∃ recs r0 r1, _compute_split_information steady = Ok recs ∧
                recs !! 0%nat = Some r0 ∧ recs !! 1%nat = Some r1 ∧
                time r0 = Some 100 ∧ time r1 = Some 250 ∧
                split_time r1 = Some (250 - 100).
Proof.
  provide (_compute_split_information steady).
  provide (to_option (_compute_split_information steady) ≫= (.!! 0%nat)).
  provide (to_option (_compute_split_information steady) ≫= (.!! 1%nat)).
  split; [vm_compute; reflexivity|]. do 4 (split; [reflexivity|]).
  eapply (split_time_is_difference_of_consecutive_times steady _ 0%nat);
    [vm_compute| | | |]; reflexivity.
Defined.

Lemma steady_split_times_add_up :
  ∃ recs r, _compute_split_information steady = Ok recs ∧ recs !! 2%nat = Some r ∧
            (split_time <$> recs) = [Some 100; Some 150; Some 130] ∧
            time r = Some (sum_split_times (take 3 recs)).
Proof.
  provide (_compute_split_information steady).
  provide (to_option (_compute_split_information steady) ≫= (.!! 2%nat)).
  split; [vm_compute; reflexivity|]. split; [reflexivity|]. split; [reflexivity|].
  eapply (split_times_add_up_to_time steady _ 2%nat); [vm_compute; reflexivity | reflexivity |].
  intros [|[|[|j]]] r' Hj; simpl; intros [= <-]; by eexists.
Defined.

Lemma slower_first_order :
  ∃ rep, process_xml slower_first = Ok rep ∧
         (name <$> results rep) = ["Ada Berg"; "Bo Dahl"] ∧
         Forall2 (λ pr p, ∃ p0, _extract_person_result pr = Ok p0 ∧ same_person p0 p)
           (findall_desc "PersonResult" slower_first) (results rep).
Proof.
  provide (process_xml slower_first).
  split; [vm_compute; reflexivity|]. split; [reflexivity|].
  apply (results_follow_document_order slower_first). vm_compute. reflexivity.
Defined.

Lemma slower_first_swapped :
  ∃ p1 p2, _extract_result_list slower_first = Ok [p1; p2] ∧
           _compute_best_split_times [p1; p2] = _compute_best_split_times [p2; p1].
Proof.
  provide_pair (_extract_result_list slower_first).
  split; [vm_compute; reflexivity|].
  apply best_split_times_ignore_order. apply perm_swap.
Defined.

Lemma slower_first_annotated_twice :
  ∃ rl rl', _extract_result_list slower_first = Ok rl ∧
            _add_split_analysis rl (_compute_best_split_times rl) = Ok rl' ∧
            _add_split_analysis rl' (_compute_best_split_times rl) = Ok rl'.
Proof.
  provide (_extract_result_list slower_first).
  provide (results <$> to_option (process_xml slower_first)).
  split; [vm_compute; reflexivity|].
  assert (Hpass : ∀ rl rl' : list Person,
             _add_split_analysis rl (_compute_best_split_times rl) = Ok rl' →
             _add_split_analysis rl (_compute_best_split_times rl) = Ok rl' ∧
             _add_split_analysis rl' (_compute_best_split_times rl) = Ok rl').
  { intros rl rl' Hrun. split; [exact Hrun|].
    by apply (add_split_analysis_is_idempotent rl). }
  apply Hpass. vm_compute. reflexivity.
Defined.

(** The second competitor misses control 32; the first punches it, so the
    report is returned and the missed split carries two absent values. *)
Lemma missed_by_one_is_annotated :
  ∃ rep p s, process_xml missed_by_one = Ok rep ∧ results rep !! 1%nat = Some p ∧
             splits p !! 1%nat = Some s ∧ split_time s = None ∧
             ∃ a, analysis s = Some a ∧
                  (split_gap a = None ↔ split_time s = None) ∧
                  (percentage_gap a = None ↔ split_time s = None).
Proof.
  provide (process_xml missed_by_one).
  provide (to_option (process_xml missed_by_one) ≫= λ r, results r !! 1%nat).
  provide (to_option (process_xml missed_by_one) ≫= λ r, results r !! 1%nat
           ≫= λ p, splits p !! 1%nat).
  split; [vm_compute; reflexivity|]. do 3 (split; [reflexivity|]).
  eapply (every_split_is_annotated missed_by_one).
  - vm_compute. reflexivity.
  - right. left.
  - right. left.
Defined.

Lemma slower_first_best_has_gap_zero :
  ∃ rep, process_xml slower_first = Ok rep ∧
         _compute_best_split_times (results rep) !! Some "32" = Some 150 ∧
         ∃ p s a, p ∈ results rep ∧ s ∈ splits p ∧ control_code s = Some "32" ∧
                  split_time s = Some 150 ∧ analysis s = Some a ∧ split_gap a = Some 0.
Proof.
  provide (process_xml slower_first).
  split; [vm_compute; reflexivity|]. split; [vm_compute; reflexivity|].
  apply (best_split_has_gap_zero slower_first); vm_compute; reflexivity.
Defined.

Lemma slower_first_gaps_differ :
  ∃ rep p1 p2 s1 s2, process_xml slower_first = Ok rep ∧
    results rep = [p1; p2] ∧ splits p1 !! 1%nat = Some s1 ∧ splits p2 !! 1%nat = Some s2 ∧
    ∃ a1 a2 g1 g2, analysis s1 = Some a1 ∧ analysis s2 = Some a2 ∧
                   split_gap a1 = Some g1 ∧ split_gap a2 = Some g2 ∧
                   g1 - g2 = 180 - 150.
Proof.
  provide (process_xml slower_first).
  provide_pair (results <$> to_option (process_xml slower_first)).
  provide (to_option (process_xml slower_first) ≫= λ r, results r !! 0%nat
           ≫= λ p, splits p !! 1%nat).
  provide (to_option (process_xml slower_first) ≫= λ r, results r !! 1%nat
           ≫= λ p, splits p !! 1%nat).
  split; [vm_compute; reflexivity|]. do 3 (split; [reflexivity|]).
  eapply (gaps_differ_like_split_times slower_first).
  - vm_compute. reflexivity.
  - left.
  - right. left.
  - right. left.
  - right. left.
  - reflexivity.
  - reflexivity.
  - reflexivity.
Defined.

Lemma lone_missing_KeyError_cause :
  process_xml lone_missing = Raise KeyError ∧
  ∃ rl p s, _extract_result_list lone_missing = Ok rl ∧ p ∈ rl ∧ s ∈ splits p ∧
            split_time s = None ∧ unrecorded rl (control_code s).
Proof.
  assert (Hrun : process_xml lone_missing = Raise KeyError) by (vm_compute; reflexivity).
  split; [exact Hrun|].
  apply (KeyError_only_from_unrecorded_control lone_missing Hrun).
Defined.

Lemma lone_missing_aborts :
  ∃ rl p s, _extract_result_list lone_missing = Ok rl ∧ rl = [p] ∧ splits p = [s] ∧
            unrecorded rl (control_code s) ∧ raises (process_xml lone_missing).
Proof.
  provide (_extract_result_list lone_missing).
  provide_only (_extract_result_list lone_missing).
  provide_only (splits <$> (to_option (_extract_result_list lone_missing) ≫= head)).
  split; [vm_compute; reflexivity|]. split; [reflexivity|]. split; [reflexivity|].
  match goal with
  | |- unrecorded ?rl ?c ∧ _ => assert (Hnone : unrecorded rl c)
  end.
  { intros p s Hp Hs _.
    apply list_elem_of_singleton in Hp as ->. simpl in Hs.
    apply list_elem_of_singleton in Hs as ->. reflexivity. }
  split; [exact Hnone|].
  eapply (unrecorded_control_aborts lone_missing); [| | |exact Hnone].
  - vm_compute. reflexivity.
  - left.
  - left.
Defined.

End Samples.
